(** * Controllers for the profile page (core/controllers/profile.py)

    A shallow embedding of the request handlers of the profile module:
    [ProfilePage], [PreferencesPage], [PreferencesHandler],
    [EditorPrerequisitesPage], [EditorPrerequisitesHandler] and
    [UsernameCheckHandler].

    The handlers are glue code: they read the request, call the
    user-settings service ([core.domain.user_services]) and render a page
    or a JSON document.  Each handler is embedded as a small program over
    the service calls it makes (a free monad with exceptions), so that the
    order of the calls, the exceptions that are caught and the final
    response can all be read off.  Programs are then run against a service
    implementation, threading the service's state and logging every call. *)

From Stdlib Require Import ZArith SpecFloat.
From stdpp Require Import gmap strings list fin_maps.

Local Open Scope string_scope.

(* ===================================================================== *)
(** ** Python values *)
(* ===================================================================== *)

(** The values that reach the handlers: what [json.loads] produces for a
    request payload (None, booleans, integers, floats, unicode strings,
    lists and dicts), which is also what the handlers put into responses. *)
#[warnings="-register-all"]
Inductive pyval : Type :=
| PNone
| PBool (b : bool)
| PInt (n : Z)
| PFloat (f : spec_float)
| PStr (s : string)
| PList (l : list pyval)
| PDict (d : list (string * pyval)).

(** Python truthiness ([bool(v)], the test behind [if v] and [not v]). *)
Definition py_truthy (v : pyval) : bool :=
  match v with
  | PNone => false
  | PBool b => b
  | PInt n => negb (n =? 0)%Z
  | PFloat (S754_zero _) => false
  | PFloat _ => true
  | PStr s => negb (String.eqb s "")
  | PList l => match l with [] => false | _ => true end
  | PDict d => match d with [] => false | _ => true end
  end.

(** [isinstance(v, bool)]. *)
Definition isinstance_bool (v : pyval) : bool :=
  match v with PBool _ => true | _ => false end.

(** [v == 'literal']: only a string with the same characters is equal to
    a string literal. *)
Definition py_eq_str (v : pyval) (lit : string) : bool :=
  match v with PStr s => String.eqb s lit | _ => false end.

Global Instance spec_float_eq_dec : EqDecision spec_float.
Proof. solve_decision. Defined.

Global Instance pyval_eq_dec : EqDecision pyval.
Proof.
  unfold EqDecision, Decision.
  fix IH 1.
  intros x y; destruct x as [ | b | n | f | s | l | d ],
                       y as [ | b' | n' | f' | s' | l' | d' ];
    try (right; discriminate); try (left; reflexivity).
  - destruct (decide (b = b')) as [->|Hne]; [left; reflexivity | right; congruence].
  - destruct (decide (n = n')) as [->|Hne]; [left; reflexivity | right; congruence].
  - destruct (decide (f = f')) as [->|Hne]; [left; reflexivity | right; congruence].
  - destruct (decide (s = s')) as [->|Hne]; [left; reflexivity | right; congruence].
  - assert (Hl : {l = l'} + {l <> l'}).
    { revert l'. induction l as [ | a l IHl ]; intros [ | a' l' ].
      - left; reflexivity.
      - right; discriminate.
      - right; discriminate.
      - destruct (IH a a') as [->|Hne]; [ | right; congruence ].
        destruct (IHl l') as [->|Hne]; [left; reflexivity | right; congruence]. }
    destruct Hl as [->|Hne]; [left; reflexivity | right; congruence].
  - assert (Hd : {d = d'} + {d <> d'}).
    { revert d'. induction d as [ | [k a] d IHd ]; intros [ | [k' a'] d' ].
      - left; reflexivity.
      - right; discriminate.
      - right; discriminate.
      - destruct (decide (k = k')) as [->|Hne]; [ | right; congruence ].
        destruct (IH a a') as [->|Hne]; [ | right; congruence ].
        destruct (IHd d') as [->|Hne]; [left; reflexivity | right; congruence]. }
    destruct Hd as [->|Hne]; [left; reflexivity | right; congruence].
Defined.

(** A Python dict with string keys, as the request payload and the
    template/JSON values are. *)
Abbreviation pydict := (gmap string pyval).

(** [d.get(key)]: the value, or [None] when the key is missing. *)
Definition dict_get (d : pydict) (key : string) : pyval :=
  default PNone (d !! key).

(** [d.update(new)]: the entries of [new] override those of [d]. *)
Definition dict_update (d new : pydict) : pydict := new ∪ d.

(* ===================================================================== *)
(** ** Exceptions *)
(* ===================================================================== *)

(** An exception message: a literal, or a ['...%s' % arg] format whose
    argument is kept as the value it was built from. *)
Inductive message : Type :=
| Msg (s : string)
| MsgFormat (fmt : string) (arg : pyval).

Inductive exn : Type :=
| PageNotFoundException
| InvalidInputException (msg : message)
| UnauthorizedUserException
| ValidationError (msg : message)
| AttributeError (msg : string)
| Exception (msg : string).

(* ===================================================================== *)
(** ** The user-settings service, as the handlers see it *)
(* ===================================================================== *)

(** Modelled from the spec: the type declaration of the user-settings
    entity ([user_services.UserSettings]) is not part of this module.  The
    attributes the handlers read are [username] (a string, None until
    set), [last_agreed_to_terms] (a timestamp, None until the user
    agrees), [user_bio] (text) and [preferred_language_codes] (a list of
    language codes).  [user_bio], [preferred_language_codes] and
    [username] hold whatever value the service stored. *)
Record UserSettings : Type := {
  username : pyval;
  last_agreed_to_terms : option Z;
  user_bio : pyval;
  preferred_language_codes : pyval
}.

Global Instance UserSettings_eq_dec : EqDecision UserSettings.
Proof. solve_decision. Defined.

(** [bool(user_settings.last_agreed_to_terms)]: a datetime is always
    true, None is false. *)
Definition bool_of_timestamp (t : option Z) : bool :=
  match t with Some _ => true | None => false end.

Module user_services.

(** The operations of [core.domain.user_services] that the handlers
    call, each with the type of its result. *)
Inductive call : Type -> Type :=
| get_user_settings_from_username (username : pyval)
    : call (option UserSettings)
| get_user_settings (user_id : string) : call (option UserSettings)
| update_user_bio (user_id : string) (user_bio : pyval) : call unit
| update_preferred_language_codes (user_id : string) (codes : pyval)
    : call unit
| record_agreement_to_terms (user_id : string) : call unit
| get_username (user_id : string) : call pyval
| set_username (user_id : string) (new_username : pyval) : call unit
| require_valid_username (username : pyval) : call unit
| is_username_taken (username : pyval) : call bool.

(** A call together with its result type, as logged in a trace. *)
Inductive event : Type :=
| Event {X : Type} (c : call X).

(** The update operations: the calls that may write user settings. *)
Definition is_update (ev : event) : bool :=
  match ev with
  | Event (update_user_bio _ _)
  | Event (update_preferred_language_codes _ _)
  | Event (record_agreement_to_terms _)
  | Event (set_username _ _) => true
  | Event _ => false
  end.

(** Modelled from the spec: the service itself is outside this module,
    so an implementation is a parameter.  Its state is some type [S];
    the query operations read the state, the static validator does not
    depend on it, and the update operations return a new state.  Every
    operation may raise. *)
Record Service (S : Type) : Type := {
  svc_get_user_settings_from_username :
    pyval -> S -> exn + option UserSettings;
  svc_get_user_settings : string -> S -> exn + option UserSettings;
  svc_update_user_bio : string -> pyval -> S -> (exn + unit) * S;
  svc_update_preferred_language_codes :
    string -> pyval -> S -> (exn + unit) * S;
  svc_record_agreement_to_terms : string -> S -> (exn + unit) * S;
  svc_get_username : string -> S -> exn + pyval;
  svc_set_username : string -> pyval -> S -> (exn + unit) * S;
  svc_require_valid_username : pyval -> exn + unit;
  svc_is_username_taken : pyval -> S -> exn + bool
}.

Arguments svc_get_user_settings_from_username {S} _ _ _.
Arguments svc_get_user_settings {S} _ _ _.
Arguments svc_update_user_bio {S} _ _ _ _.
Arguments svc_update_preferred_language_codes {S} _ _ _ _.
Arguments svc_record_agreement_to_terms {S} _ _ _.
Arguments svc_get_username {S} _ _ _.
Arguments svc_set_username {S} _ _ _ _.
Arguments svc_require_valid_username {S} _ _.
Arguments svc_is_username_taken {S} _ _ _.

(** One call against an implementation: its result and the new state. *)
Definition handle {S X : Type} (svc : Service S) (c : call X) (st : S)
  : (exn + X) * S :=
  match c in call X return (exn + X) * S with
  | get_user_settings_from_username u =>
      (svc_get_user_settings_from_username svc u st, st)
  | get_user_settings uid => (svc_get_user_settings svc uid st, st)
  | update_user_bio uid bio => svc_update_user_bio svc uid bio st
  | update_preferred_language_codes uid codes =>
      svc_update_preferred_language_codes svc uid codes st
  | record_agreement_to_terms uid =>
      svc_record_agreement_to_terms svc uid st
  | get_username uid => (svc_get_username svc uid st, st)
  | set_username uid u => svc_set_username svc uid u st
  | require_valid_username u => (svc_require_valid_username svc u, st)
  | is_username_taken u => (svc_is_username_taken svc u st, st)
  end.

End user_services.

(* ===================================================================== *)
(** ** Handler programs *)
(* ===================================================================== *)

(** A handler body: it returns, raises, or calls the service and goes on
    with the call's result (a value or an exception). *)
Inductive prog (A : Type) : Type :=
| Ret (a : A)
| Raise (e : exn)
| Call {X : Type} (c : user_services.call X) (k : exn + X -> prog A).

Arguments Ret {A} a.
Arguments Raise {A} e.
Arguments Call {A X} c k.

Fixpoint bind {A B : Type} (p : prog A) (f : A -> prog B) : prog B :=
  match p with
  | Ret a => f a
  | Raise e => Raise e
  | Call c k => Call c (fun r => bind (k r) f)
  end.

Global Instance prog_ret : MRet prog := @Ret.
Global Instance prog_bind : MBind prog := fun A B f p => bind p f.

(** A service call as a statement: an exception raised by the service
    propagates. *)
Definition call {X : Type} (c : user_services.call X) : prog X :=
  Call c (fun r => match r with inl e => Raise e | inr x => Ret x end).

(** [try: body except ...: handler]: [handler e] is [Some h] when an
    except clause matches the exception [e]. *)
Fixpoint try_except {A : Type} (body : prog A)
    (handler : exn -> option (prog A)) : prog A :=
  match body with
  | Ret a => Ret a
  | Raise e => match handler e with Some h => h | None => Raise e end
  | Call c k => Call c (fun r => try_except (k r) handler)
  end.

(** Running a program against a service implementation: the outcome (an
    uncaught exception or the result), the final service state and the
    calls made, in order.  State changes made before an exception stay. *)
Fixpoint run {S A : Type} (svc : user_services.Service S) (p : prog A)
    (st : S) : (exn + A) * S * list user_services.event :=
  match p with
  | Ret a => (inr a, st, [])
  | Raise e => (inl e, st, [])
  | Call c k =>
      let '(r, st1) := user_services.handle svc c st in
      let '(out, st2, tr) := run svc (k r) st1 in
      (out, st2, user_services.Event c :: tr)
  end.

Definition outcome {S A : Type} (res : (exn + A) * S * list user_services.event)
  : exn + A := res.1.1.
Definition final_state {S A : Type}
    (res : (exn + A) * S * list user_services.event) : S := res.1.2.
Definition trace {S A : Type} (res : (exn + A) * S * list user_services.event)
  : list user_services.event := res.2.

(* ===================================================================== *)
(** ** The framework around the handlers *)
(* ===================================================================== *)

Module base.

(** What a handler reads from [self]: the authenticated user (None when
    nobody is logged in), the decoded JSON payload, and the values
    collected so far for the template or the JSON response. *)
Record BaseHandler : Type := {
  user_id : option string;
  payload : pydict;
  values : pydict
}.

(** What a handler leaves in [self.response]. *)
Inductive response : Type :=
| no_response
| render_json (values : pydict)
| render_template (path : string) (values : pydict).

(** Modelled from the spec: the decorator [base.require_user] is not
    part of this module.  It is a precondition gate: the request fails
    with an authorization error if no authenticated user is bound to
    it, and otherwise the decorated method runs. *)
Definition require_user {A : Type} (self : BaseHandler)
    (method : string -> prog A) : prog A :=
  match user_id self with
  | Some uid => method uid
  | None => Raise UnauthorizedUserException
  end.

End base.

Module feconf.

(** An entry of the language catalogue [feconf.ALL_LANGUAGE_CODES]. *)
Record language : Type := {
  code : pyval;
  description : pyval
}.

(** The constants of [feconf] that the module uses; their values are
    not part of this module. *)
Record t : Type := {
  NAV_MODE_PROFILE : pyval;
  ALL_LANGUAGE_CODES : list language;
  DEFAULT_EDITOR_PREREQUISITES_AGREEMENT : pyval
}.

End feconf.

Module config_domain.

Record ConfigProperty : Type := {
  name : string;
  schema : string;
  description : string;
  default_value : pyval
}.

End config_domain.

(* ===================================================================== *)
(** ** The handlers of core/controllers/profile.py *)
(* ===================================================================== *)

Section profile.

Variable cfg : feconf.t.
(** [utils.get_short_language_description]. *)
Variable get_short_language_description : pyval -> pyval.
(** The [value] property of a config property: the value currently
    configured for it. *)
Variable config_value : config_domain.ConfigProperty -> pyval.

Definition EDITOR_PREREQUISITES_AGREEMENT : config_domain.ConfigProperty :=
  {| config_domain.name := "editor_prerequisites_agreement";
     config_domain.schema := "Html";
     config_domain.description :=
       "The agreement that editors are asked to accept before making any "
       ++ "contributions.";
     config_domain.default_value :=
       feconf.DEFAULT_EDITOR_PREREQUISITES_AGREEMENT cfg |}.

(** [ProfilePage.get(self, username)] *)
Definition ProfilePage_get (self : base.BaseHandler) (username : pyval)
  : prog base.response :=
  if negb (py_truthy username) then Raise PageNotFoundException
  else
    user_settings ←
      call (user_services.get_user_settings_from_username username);
    match user_settings with
    | None => Raise PageNotFoundException
    | Some user_settings =>
        let values :=
          dict_update (base.values self)
            (<["nav_mode" := feconf.NAV_MODE_PROFILE cfg]>
             (<["user_bio" := user_bio user_settings]> ∅)) in
        Ret (base.render_template "profile/profile.html" values)
    end.

(** [PreferencesPage.get(self)] *)
Definition PreferencesPage_get (self : base.BaseHandler)
  : prog base.response :=
  base.require_user self (fun _ =>
    let values :=
      dict_update (base.values self)
        (<["nav_mode" := feconf.NAV_MODE_PROFILE cfg]>
         (<["LANGUAGE_CODES_AND_NAMES" :=
              PList (map (fun lc =>
                PDict [("code", feconf.code lc);
                       ("name", get_short_language_description
                                  (feconf.description lc))])
                (feconf.ALL_LANGUAGE_CODES cfg))]> ∅)) in
    Ret (base.render_template "profile/preferences.html" values)).

(** [PreferencesHandler.get(self)] *)
Definition PreferencesHandler_get (self : base.BaseHandler)
  : prog base.response :=
  base.require_user self (fun user_id =>
    user_settings ← call (user_services.get_user_settings user_id);
    match user_settings with
    | None =>
        Raise (AttributeError "'NoneType' object has no attribute 'user_bio'")
    | Some user_settings =>
        let values :=
          dict_update (base.values self)
            (<["user_bio" := user_bio user_settings]>
             (<["preferred_language_codes" :=
                  preferred_language_codes user_settings]> ∅)) in
        Ret (base.render_json values)
    end).

(** [PreferencesHandler.put(self)] *)
Definition PreferencesHandler_put (self : base.BaseHandler)
  : prog base.response :=
  base.require_user self (fun user_id =>
    let update_type := dict_get (base.payload self) "update_type" in
    let data := dict_get (base.payload self) "data" in
    if py_eq_str update_type "user_bio" then
      call (user_services.update_user_bio user_id data);;
      Ret base.no_response
    else if py_eq_str update_type "preferred_language_codes" then
      call (user_services.update_preferred_language_codes user_id data);;
      Ret base.no_response
    else
      Raise (InvalidInputException
               (MsgFormat "Invalid update type: %s" update_type))).

(** [EditorPrerequisitesPage.get(self)] *)
Definition EditorPrerequisitesPage_get (self : base.BaseHandler)
  : prog base.response :=
  base.require_user self (fun _ =>
    let values :=
      dict_update (base.values self)
        (<["agreement" := config_value EDITOR_PREREQUISITES_AGREEMENT]>
         (<["nav_mode" := feconf.NAV_MODE_PROFILE cfg]> ∅)) in
    Ret (base.render_template "profile/editor_prerequisites.html" values)).

(** [EditorPrerequisitesHandler.get(self)] *)
Definition EditorPrerequisitesHandler_get (self : base.BaseHandler)
  : prog base.response :=
  base.require_user self (fun user_id =>
    user_settings ← call (user_services.get_user_settings user_id);
    match user_settings with
    | None =>
        Raise (AttributeError
                 "'NoneType' object has no attribute 'last_agreed_to_terms'")
    | Some user_settings =>
        Ret (base.render_json
               (<["has_agreed_to_terms" :=
                    PBool (bool_of_timestamp
                             (last_agreed_to_terms user_settings))]>
                (<["username" := username user_settings]> ∅)))
    end).

(** [EditorPrerequisitesHandler.post(self)] *)
Definition EditorPrerequisitesHandler_post (self : base.BaseHandler)
  : prog base.response :=
  base.require_user self (fun user_id =>
    let username := dict_get (base.payload self) "username" in
    let agreed_to_terms := dict_get (base.payload self) "agreed_to_terms" in
    (if negb (isinstance_bool agreed_to_terms)
        || negb (py_truthy agreed_to_terms)
     then
       Raise (InvalidInputException
                (Msg ("In order to edit explorations on this site, you will "
                      ++ "need to accept the license terms.")))
     else
       call (user_services.record_agreement_to_terms user_id));;
    current ← call (user_services.get_username user_id);
    if py_truthy current then
      (* A username has already been set for this user. *)
      Ret (base.render_json ∅)
    else
      try_except
        (call (user_services.set_username user_id username))
        (fun e => match e with
                  | ValidationError msg =>
                      Some (Raise (InvalidInputException msg))
                  | _ => None
                  end);;
      Ret (base.render_json ∅)).

(** [UsernameCheckHandler.post(self)] *)
Definition UsernameCheckHandler_post (self : base.BaseHandler)
  : prog base.response :=
  base.require_user self (fun _ =>
    let username := dict_get (base.payload self) "username" in
    try_except
      (call (user_services.require_valid_username username))
      (fun e => match e with
                | ValidationError msg =>
                    Some (Raise (InvalidInputException msg))
                | _ => None
                end);;
    username_is_taken ← call (user_services.is_username_taken username);
    Ret (base.render_json
           (<["username_is_taken" := PBool username_is_taken]> ∅))).

(** The requests the module serves, each with what its route binds. *)
Inductive request : Type :=
| GET_ProfilePage (username : pyval)
| GET_PreferencesPage
| GET_PreferencesHandler
| PUT_PreferencesHandler
| GET_EditorPrerequisitesPage
| GET_EditorPrerequisitesHandler
| POST_EditorPrerequisitesHandler
| POST_UsernameCheckHandler.

Definition dispatch (req : request) (self : base.BaseHandler)
  : prog base.response :=
  match req with
  | GET_ProfilePage username => ProfilePage_get self username
  | GET_PreferencesPage => PreferencesPage_get self
  | GET_PreferencesHandler => PreferencesHandler_get self
  | PUT_PreferencesHandler => PreferencesHandler_put self
  | GET_EditorPrerequisitesPage => EditorPrerequisitesPage_get self
  | GET_EditorPrerequisitesHandler => EditorPrerequisitesHandler_get self
  | POST_EditorPrerequisitesHandler => EditorPrerequisitesHandler_post self
  | POST_UsernameCheckHandler => UsernameCheckHandler_post self
  end.

End profile.

(* ===================================================================== *)
(** ** A model of the user-settings service *)
(* ===================================================================== *)

Module user_services_model.

(** The stored user settings, by user id. *)
Abbreviation store := (gmap string UserSettings).

Definition with_user_bio (us : UserSettings) (bio : pyval) : UserSettings :=
  {| username := username us;
     last_agreed_to_terms := last_agreed_to_terms us;
     user_bio := bio;
     preferred_language_codes := preferred_language_codes us |}.

Definition with_preferred_language_codes (us : UserSettings)
    (codes : pyval) : UserSettings :=
  {| username := username us;
     last_agreed_to_terms := last_agreed_to_terms us;
     user_bio := user_bio us;
     preferred_language_codes := codes |}.

Definition with_last_agreed_to_terms (us : UserSettings) (t : option Z)
  : UserSettings :=
  {| username := username us;
     last_agreed_to_terms := t;
     user_bio := user_bio us;
     preferred_language_codes := preferred_language_codes us |}.

Definition with_username (us : UserSettings) (u : pyval) : UserSettings :=
  {| username := u;
     last_agreed_to_terms := last_agreed_to_terms us;
     user_bio := user_bio us;
     preferred_language_codes := preferred_language_codes us |}.

(** The username [u] exists among the stored user settings. *)
Definition username_exists (u : pyval) (st : store) : Prop :=
  map_Exists (fun _ us => username us = u) st.

Global Instance username_exists_dec u st : Decision (username_exists u st).
Proof. unfold username_exists. apply _. Defined.

Section service.

(** The static format validator: [Some msg] when the username is
    rejected with the validation message [msg]. *)
Variable validate_username : pyval -> option message.
(** The validation message for a username that is already taken. *)
Variable taken_message : pyval -> message.
(** The time at which agreement is recorded. *)
Variable now : Z.

Definition user_not_found : exn := Exception "User not found.".

(** Modelled from the spec: [get_user_settings] is a pure read of
    the stored settings of a user. *)
Definition get_user_settings (uid : string) (st : store)
  : exn + option UserSettings := inr (st !! uid).

(** Modelled from the spec: [get_user_settings_from_username]
    finds matching user settings, None when no stored settings have
    that username. *)
Definition get_user_settings_from_username (u : pyval) (st : store)
  : exn + option UserSettings :=
  inr (snd <$> list_find (fun us => username us = u)
                 (map_to_list st).*2).

(** Modelled from the spec: the named update operations are partial
    updates of one attribute of one user's settings; the module never
    constructs the entity, so an update for a user without settings
    fails and writes nothing. *)
Definition update (uid : string) (f : UserSettings -> UserSettings)
    (st : store) : (exn + unit) * store :=
  match st !! uid with
  | Some us => (inr (), <[uid := f us]> st)
  | None => (inl user_not_found, st)
  end.

Definition update_user_bio (uid : string) (bio : pyval) :=
  update uid (fun us => with_user_bio us bio).

Definition update_preferred_language_codes (uid : string)
    (codes : pyval) :=
  update uid (fun us => with_preferred_language_codes us codes).

(** Modelled from the spec: recording agreement sets the user's
    [last_agreed_to_terms]. *)
Definition record_agreement_to_terms (uid : string) :=
  update uid (fun us => with_last_agreed_to_terms us (Some now)).

Definition get_username (uid : string) (st : store) : exn + pyval :=
  match st !! uid with
  | Some us => inr (username us)
  | None => inl user_not_found
  end.

Definition require_valid_username (u : pyval) : exn + unit :=
  match validate_username u with
  | Some msg => inl (ValidationError msg)
  | None => inr ()
  end.

(** Modelled from the spec: a username is taken iff it already
    exists among the stored user settings. *)
Definition is_username_taken (u : pyval) (st : store) : exn + bool :=
  inr (bool_decide (username_exists u st)).

(** Modelled from the spec: [set_username] signals a validation
    failure for a malformed or a taken username, and otherwise
    stores the username. *)
Definition set_username (uid : string) (u : pyval) (st : store)
  : (exn + unit) * store :=
  match validate_username u with
  | Some msg => (inl (ValidationError msg), st)
  | None =>
      if bool_decide (username_exists u st)
      then (inl (ValidationError (taken_message u)), st)
      else update uid (fun us => with_username us u) st
  end.

Definition service : user_services.Service store :=
  {| user_services.svc_get_user_settings_from_username :=
       get_user_settings_from_username;
     user_services.svc_get_user_settings := get_user_settings;
     user_services.svc_update_user_bio := update_user_bio;
     user_services.svc_update_preferred_language_codes :=
       update_preferred_language_codes;
     user_services.svc_record_agreement_to_terms :=
       record_agreement_to_terms;
     user_services.svc_get_username := get_username;
     user_services.svc_set_username := set_username;
     user_services.svc_require_valid_username := require_valid_username;
     user_services.svc_is_username_taken := is_username_taken |}.

End service.

End user_services_model.

(** The message of the terms gate of [EditorPrerequisitesHandler.post]. *)
Definition terms_message : message :=
  Msg ("In order to edit explorations on this site, you will "
       ++ "need to accept the license terms.").

(** Every user whose username is set in [st] (a true value, which is what
    the handlers test) has the same username in [st']. *)
Definition keeps_usernames (st st' : gmap string UserSettings) : Prop :=
  forall (u : string) (us : UserSettings),
    st !! u = Some us -> py_truthy (username us) = true ->
    exists us', st' !! u = Some us' /\ username us' = username us.

(** A validator, a clock and a store to run the handlers on. *)
Module example.

Definition validate_username (u : pyval) : option message :=
  match u with
  | PStr s => if String.eqb s "" then Some (Msg "Empty username supplied.")
              else if (50 <? String.length s)%nat
              then Some (Msg "A username can have at most 50 characters.")
              else None
  | _ => Some (Msg "Empty username supplied.")
  end.

Definition taken_message (u : pyval) : message :=
  MsgFormat "Sorry, the username %s is already taken!" u.

Definition now : Z := 1400000000.

Definition service : user_services.Service (gmap string UserSettings) :=
  user_services_model.service validate_username taken_message now.

Definition alice : UserSettings :=
  {| username := PStr "alice";
     last_agreed_to_terms := Some 1300000000%Z;
     user_bio := PStr "I like maps.";
     preferred_language_codes := PList [PStr "en"] |}.

Definition newcomer : UserSettings :=
  {| username := PNone;
     last_agreed_to_terms := None;
     user_bio := PNone;
     preferred_language_codes := PList [] |}.

Definition users : gmap string UserSettings :=
  <["uid_alice" := alice]> (<["uid_new" := newcomer]> ∅).

Definition cfg : feconf.t :=
  {| feconf.NAV_MODE_PROFILE := PStr "profile";
     feconf.ALL_LANGUAGE_CODES :=
       [ {| feconf.code := PStr "en";
            feconf.description := PStr "English" |} ];
     feconf.DEFAULT_EDITOR_PREREQUISITES_AGREEMENT := PStr "Agreement" |}.

Definition request_of (uid : option string) (payload : pydict)
  : base.BaseHandler :=
  {| base.user_id := uid; base.payload := payload; base.values := ∅ |}.

(** The settings of the newcomer once agreement is recorded. *)
Definition users_agreed : gmap string UserSettings :=
  <["uid_new" :=
      user_services_model.with_last_agreed_to_terms newcomer (Some now)]>
    users.

(** The settings once the newcomer has stored a bio. *)
Definition users_bio : gmap string UserSettings :=
  <["uid_new" := user_services_model.with_user_bio newcomer (PStr "hello")]>
    users.

Definition agree_as (u : pyval) : pydict :=
  <["agreed_to_terms" := PBool true]> (<["username" := u]> ∅).

Definition agree_only : pydict := <["agreed_to_terms" := PBool true]> ∅.

Definition truthy_string_terms : pydict :=
  <["agreed_to_terms" := PStr "true"]> (<["username" := PStr "bob"]> ∅).

Definition put_bio : pydict :=
  <["update_type" := PStr "user_bio"]> (<["data" := PStr "hello"]> ∅).

Definition put_unknown : pydict :=
  <["update_type" := PStr "email"]> (<["data" := PStr "a@b.c"]> ∅).

End example.

(** The user a service call is made for: the [user_id] argument of the
    calls that take one. *)
Definition call_user_id (ev : user_services.event) : option string :=
  match ev with
  | user_services.Event (user_services.get_user_settings uid)
  | user_services.Event (user_services.update_user_bio uid _)
  | user_services.Event (user_services.update_preferred_language_codes uid _)
  | user_services.Event (user_services.record_agreement_to_terms uid)
  | user_services.Event (user_services.get_username uid)
  | user_services.Event (user_services.set_username uid _) => Some uid
  | user_services.Event _ => None
  end.

(* ===================================================================== *)
(** ** Running programs: general facts *)
(* ===================================================================== *)

Section run_facts.

Context {S : Type} (svc : user_services.Service S).

(** Sequencing: the second part runs in the state the first part left,
    unless the first part raised; the traces are concatenated. *)
Lemma run_bind {A B : Type} (p : prog A) (f : A -> prog B) (st : S) :
  run svc (bind p f) st =
  match run svc p st with
  | (inl e, st1, tr) => (inl e, st1, tr)
  | (inr a, st1, tr) =>
      let '(out, st2, tr2) := run svc (f a) st1 in (out, st2, (tr ++ tr2)%list)
  end.
Proof.
  revert st. induction p as [a | e | X c k IH]; intros st; simpl.
  - destruct (run svc (f a) st) as [[out st2] tr2]. reflexivity.
  - reflexivity.
  - destruct (user_services.handle svc c st) as [r st1].
    rewrite IH.
    destruct (run svc (k r) st1) as [[[e | a] st2] tr]; [reflexivity | ].
    destruct (run svc (f a) st2) as [[out st3] tr3]. reflexivity.
Qed.

(** A program never forgets a call it made. *)
Lemma run_call {X : Type} (c : user_services.call X) (st : S) :
  run svc (call c) st =
  ((user_services.handle svc c st).1, (user_services.handle svc c st).2,
   [user_services.Event c]).
Proof.
  unfold call; simpl.
  destruct (user_services.handle svc c st) as [[e | x] st1]; reflexivity.
Qed.

(** The query operations leave the state as it is. *)
Lemma handle_query_state {X : Type} (c : user_services.call X) (st : S) :
  user_services.is_update (user_services.Event c) = false ->
  (user_services.handle svc c st).2 = st.
Proof. destruct c; simpl; intros H; try reflexivity; discriminate. Qed.

(** A program whose calls are all queries leaves the state as it is. *)
Lemma run_queries_only {A : Type} (p : prog A) (st : S) :
  forallb (fun ev => negb (user_services.is_update ev)) (trace (run svc p st))
    = true ->
  final_state (run svc p st) = st.
Proof.
  unfold trace, final_state.
  revert st. induction p as [a | e | X c k IH]; intros st; simpl;
    [reflexivity | reflexivity | ].
  pose proof (handle_query_state c st) as Hq.
  destruct (user_services.handle svc c st) as [r st1]; simpl in Hq.
  specialize (IH r st1).
  destruct (run svc (k r) st1) as [[out st2] tr].
  cbn [fst snd forallb] in *.
  intros H. apply andb_true_iff in H as [H1 H2].
  rewrite (IH H2). apply Hq.
  apply negb_true_iff, H1.
Qed.

End run_facts.

(* ===================================================================== *)
(** ** The handlers against any service implementation *)
(* ===================================================================== *)

Local Abbreviation Ev := user_services.Event.

(** [isinstance(v, bool) and v] holds of [True] only. *)
Lemma strict_true_iff (v : pyval) :
  negb (isinstance_bool v) || negb (py_truthy v) = false <-> v = PBool true.
Proof.
  split.
  - destruct v as [ | [ | ] | | | | | ]; simpl; intros H;
      try discriminate H; reflexivity.
  - intros ->. reflexivity.
Qed.

Section generic.

Context {S : Type} (svc : user_services.Service S).

(** What a POST to the editor prerequisites handler does once the terms
    are agreed to, call by call. *)
Lemma EditorPrerequisitesHandler_post_run
    (st : S) (uid : string) (payload values : pydict) :
  dict_get payload "agreed_to_terms" = PBool true ->
  run svc (EditorPrerequisitesHandler_post
             {| base.user_id := Some uid; base.payload := payload;
                base.values := values |}) st =
  let username := dict_get payload "username" in
  let '(r1, st1) := user_services.svc_record_agreement_to_terms svc uid st in
  match r1 with
  | inl e => (inl e, st1, [Ev (user_services.record_agreement_to_terms uid)])
  | inr _ =>
      match user_services.svc_get_username svc uid st1 with
      | inl e =>
          (inl e, st1, [Ev (user_services.record_agreement_to_terms uid);
                        Ev (user_services.get_username uid)])
      | inr current =>
          if py_truthy current then
            (inr (base.render_json ∅), st1,
             [Ev (user_services.record_agreement_to_terms uid);
              Ev (user_services.get_username uid)])
          else
            let '(r2, st2) :=
              user_services.svc_set_username svc uid username st1 in
            (match r2 with
             | inl (ValidationError msg) => inl (InvalidInputException msg)
             | inl e => inl e
             | inr _ => inr (base.render_json ∅)
             end, st2,
             [Ev (user_services.record_agreement_to_terms uid);
              Ev (user_services.get_username uid);
              Ev (user_services.set_username uid username)])
      end
  end.
Proof.
  intros Hagreed.
  unfold EditorPrerequisitesHandler_post, base.require_user; simpl.
  rewrite Hagreed; simpl.
  destruct (user_services.svc_record_agreement_to_terms svc uid st)
    as [[e1 | []] st1]; simpl; [reflexivity | ].
  destruct (user_services.svc_get_username svc uid st1)
    as [e2 | current]; simpl; [reflexivity | ].
  destruct (py_truthy current); simpl; [reflexivity | ].
  destruct (user_services.svc_set_username svc uid
              (dict_get payload "username") st1)
    as [[e3 | []] st2]; simpl; [ | reflexivity].
  destruct e3; reflexivity.
Qed.

(** Without the boolean [True] for [agreed_to_terms], the POST is refused
    before any call. *)
Lemma EditorPrerequisitesHandler_post_refused
    (st : S) (uid : string) (payload values : pydict) :
  dict_get payload "agreed_to_terms" <> PBool true ->
  run svc (EditorPrerequisitesHandler_post
             {| base.user_id := Some uid; base.payload := payload;
                base.values := values |}) st
    = (inl (InvalidInputException terms_message), st, []).
Proof.
  intros Hne.
  unfold EditorPrerequisitesHandler_post, base.require_user; simpl.
  destruct (negb (isinstance_bool (dict_get payload "agreed_to_terms"))
            || negb (py_truthy (dict_get payload "agreed_to_terms")))
    eqn:Htest; [reflexivity | ].
  apply strict_true_iff in Htest. contradiction.
Qed.

(** What a POST to the username check handler does, call by call. *)
Lemma UsernameCheckHandler_post_run
    (st : S) (uid : string) (payload values : pydict) :
  run svc (UsernameCheckHandler_post
             {| base.user_id := Some uid; base.payload := payload;
                base.values := values |}) st =
  let username := dict_get payload "username" in
  match user_services.svc_require_valid_username svc username with
  | inl e =>
      (match e with
       | ValidationError msg => inl (InvalidInputException msg)
       | _ => inl e
       end, st, [Ev (user_services.require_valid_username username)])
  | inr _ =>
      (match user_services.svc_is_username_taken svc username st with
       | inl e => inl e
       | inr taken =>
           inr (base.render_json
                  (<["username_is_taken" := PBool taken]> ∅))
       end, st,
       [Ev (user_services.require_valid_username username);
        Ev (user_services.is_username_taken username)])
  end.
Proof.
  unfold UsernameCheckHandler_post, base.require_user; simpl.
  destruct (user_services.svc_require_valid_username svc
              (dict_get payload "username")) as [e | []]; simpl.
  - destruct e; reflexivity.
  - destruct (user_services.svc_is_username_taken svc
                (dict_get payload "username") st) as [e | taken];
      reflexivity.
Qed.

End generic.

(* ===================================================================== *)
(** ** Properties of the handlers, for every service implementation *)
(* ===================================================================== *)

(** C2.  A POST to [EditorPrerequisitesHandler] by an authenticated user
    whose [agreed_to_terms] is anything but the boolean [True] (another
    value, or no value at all) raises the invalid-input condition without
    calling the service at all, so agreement is not recorded; when it is
    the boolean [True], the first call is [record_agreement_to_terms] for
    this user, whatever else the payload holds, and only the username
    calls ([get_username], then [set_username]) can follow it. *)
Theorem EditorPrerequisitesHandler_post_terms_gate
    {S : Type} (svc : user_services.Service S) (st : S) (uid : string)
    (payload values : pydict) :
  let self := {| base.user_id := Some uid; base.payload := payload;
                 base.values := values |} in
  let res := run svc (EditorPrerequisitesHandler_post self) st in
  (dict_get payload "agreed_to_terms" <> PBool true ->
     res = (inl (InvalidInputException terms_message), st, []))
  /\ (payload !! "agreed_to_terms" = None ->
     res = (inl (InvalidInputException terms_message), st, []))
  /\ (dict_get payload "agreed_to_terms" = PBool true ->
      exists rest,
        trace res = Ev (user_services.record_agreement_to_terms uid) :: rest
        /\ (rest = []
            \/ rest = [Ev (user_services.get_username uid)]
            \/ rest = [Ev (user_services.get_username uid);
                       Ev (user_services.set_username uid
                             (dict_get payload "username"))])).
Proof.
  intros self res.
  assert (Hgate : dict_get payload "agreed_to_terms" <> PBool true ->
                  res = (inl (InvalidInputException terms_message), st, [])).
  { intros Hne. subst res self.
    apply EditorPrerequisitesHandler_post_refused. exact Hne. }
  split; [exact Hgate | split].
  - intros Hmissing. apply Hgate. unfold dict_get. rewrite Hmissing.
    discriminate.
  - intros Hagreed. subst res self.
    rewrite (EditorPrerequisitesHandler_post_run svc st uid payload values
               Hagreed).
    unfold trace.
    destruct (user_services.svc_record_agreement_to_terms svc uid st)
      as [[e1 | []] st1]; simpl; [eauto | ].
    destruct (user_services.svc_get_username svc uid st1)
      as [e2 | current]; simpl; [eauto | ].
    destruct (py_truthy current); simpl; [eauto | ].
    destruct (user_services.svc_set_username svc uid
                (dict_get payload "username") st1) as [r2 st2]; simpl.
    eauto 6.
Qed.

(** C3.  A POST to [EditorPrerequisitesHandler] with [agreed_to_terms]
    true, by a user for whom agreement was recorded and who has no
    username yet, calls [set_username] with the submitted username.  A
    validation error of that call comes back as the invalid-input
    condition with the same message; any other exception is not caught;
    and when the call succeeds the response is the empty JSON object. *)
Theorem EditorPrerequisitesHandler_post_set_username
    {S : Type} (svc : user_services.Service S) (st st1 st2 : S)
    (uid : string) (payload values : pydict) (current : pyval)
    (r : exn + unit) :
  dict_get payload "agreed_to_terms" = PBool true ->
  user_services.svc_record_agreement_to_terms svc uid st = (inr (), st1) ->
  user_services.svc_get_username svc uid st1 = inr current ->
  py_truthy current = false ->
  user_services.svc_set_username svc uid (dict_get payload "username") st1
    = (r, st2) ->
  let res := run svc (EditorPrerequisitesHandler_post
                        {| base.user_id := Some uid; base.payload := payload;
                           base.values := values |}) st in
  trace res = [Ev (user_services.record_agreement_to_terms uid);
               Ev (user_services.get_username uid);
               Ev (user_services.set_username uid
                     (dict_get payload "username"))]
  /\ final_state res = st2
  /\ (forall msg, r = inl (ValidationError msg) ->
        outcome res = inl (InvalidInputException msg))
  /\ (forall e, r = inl e -> (forall msg, e <> ValidationError msg) ->
        outcome res = inl e)
  /\ (r = inr () -> outcome res = inr (base.render_json ∅)).
Proof.
  intros Hagreed Hrec Hget Hfalsy Hset res. subst res.
  rewrite (EditorPrerequisitesHandler_post_run svc st uid payload values
             Hagreed).
  simpl. rewrite Hrec, Hget, Hfalsy, Hset.
  unfold trace, final_state, outcome; simpl.
  repeat split.
  - intros msg ->. reflexivity.
  - intros e -> Hother. destruct e; try reflexivity.
    exfalso. eapply Hother. reflexivity.
  - intros ->. reflexivity.
Qed.

(** C4.  A PUT to [PreferencesHandler] by an authenticated user calls
    [update_user_bio] with the payload's data when [update_type] is
    ['user_bio'], calls [update_preferred_language_codes] with that data
    when it is ['preferred_language_codes'], and makes no other call in
    either case; for every other [update_type], a missing one included,
    it raises the invalid-input condition and calls nothing. *)
Theorem PreferencesHandler_put_dispatch
    {S : Type} (svc : user_services.Service S) (st : S) (uid : string)
    (payload values : pydict) :
  let update_type := dict_get payload "update_type" in
  let data := dict_get payload "data" in
  let res := run svc (PreferencesHandler_put
                        {| base.user_id := Some uid; base.payload := payload;
                           base.values := values |}) st in
  (update_type = PStr "user_bio" ->
     trace res = [Ev (user_services.update_user_bio uid data)]
     /\ final_state res = (user_services.svc_update_user_bio svc uid data st).2)
  /\ (update_type = PStr "preferred_language_codes" ->
     trace res = [Ev (user_services.update_preferred_language_codes uid data)]
     /\ final_state res =
        (user_services.svc_update_preferred_language_codes svc uid data st).2)
  /\ (update_type <> PStr "user_bio" ->
      update_type <> PStr "preferred_language_codes" ->
      res = (inl (InvalidInputException
                    (MsgFormat "Invalid update type: %s" update_type)),
             st, []))
  /\ (payload !! "update_type" = None ->
      res = (inl (InvalidInputException
                    (MsgFormat "Invalid update type: %s" PNone)), st, [])).
Proof.
  intros update_type data res. subst res.
  unfold PreferencesHandler_put, base.require_user; simpl.
  fold update_type data.
  assert (Hother : update_type <> PStr "user_bio" ->
                   update_type <> PStr "preferred_language_codes" ->
                   py_eq_str update_type "user_bio" = false
                   /\ py_eq_str update_type "preferred_language_codes" = false).
  { intros H1 H2. destruct update_type as [ | | | | s | | ];
      try (split; reflexivity). simpl.
    split; apply String.eqb_neq; congruence. }
  split; [intros H | split; [intros H | split; [intros H1 H2 | intros H]]].
  - rewrite H; simpl.
    destruct (user_services.svc_update_user_bio svc uid data st)
      as [[e | []] st1]; split; reflexivity.
  - rewrite H; simpl.
    destruct (user_services.svc_update_preferred_language_codes svc uid data st)
      as [[e | []] st1]; split; reflexivity.
  - destruct (Hother H1 H2) as [-> ->]. reflexivity.
  - assert (Hnone : update_type = PNone).
    { unfold update_type, dict_get. rewrite H. reflexivity. }
    rewrite Hnone. reflexivity.
Qed.

(** C5.  A GET of [ProfilePage]: an empty username (any false value, the
    empty string in particular) is not found, without any call; a
    username for which the service finds no user settings is not found;
    otherwise the profile template is rendered with the navigation mode
    and the bio of the settings that were found, the other template
    values being left as they were.  In every case the service state is
    unchanged and no update operation is called. *)
Theorem ProfilePage_get_not_found_or_bio
    {S : Type} (svc : user_services.Service S) (cfg : feconf.t) (st : S)
    (self : base.BaseHandler) (username : pyval) :
  let lookup := user_services.get_user_settings_from_username username in
  let res := run svc (ProfilePage_get cfg self username) st in
  (py_truthy username = false ->
     res = (inl PageNotFoundException, st, []))
  /\ (py_truthy username = true ->
      user_services.svc_get_user_settings_from_username svc username st
        = inr None ->
      res = (inl PageNotFoundException, st, [Ev lookup]))
  /\ (forall us : UserSettings,
      py_truthy username = true ->
      user_services.svc_get_user_settings_from_username svc username st
        = inr (Some us) ->
      exists vals : pydict,
        res = (inr (base.render_template "profile/profile.html" vals), st,
               [Ev lookup])
        /\ vals !! "nav_mode" = Some (feconf.NAV_MODE_PROFILE cfg)
        /\ vals !! "user_bio" = Some (user_bio us)
        /\ (forall key, key <> "nav_mode" -> key <> "user_bio" ->
              vals !! key = base.values self !! key))
  /\ final_state res = st
  /\ forallb (fun ev => negb (user_services.is_update ev)) (trace res) = true.
Proof.
  intros lookup res. subst res lookup.
  unfold ProfilePage_get, final_state, trace.
  split; [intros Hempty | split; [intros Hname Hnone | split;
    [intros us Hname Hsome | ]]].
  - rewrite Hempty. reflexivity.
  - rewrite Hname; simpl. rewrite Hnone. reflexivity.
  - rewrite Hname; simpl. rewrite Hsome; simpl.
    eexists. split; [reflexivity | ].
    unfold dict_update.
    split; [ | split].
    + apply lookup_union_Some_l. apply lookup_insert_eq.
    + apply lookup_union_Some_l. rewrite lookup_insert_ne by discriminate.
      apply lookup_insert_eq.
    + intros key Hnav Hbio. rewrite lookup_union_r; [reflexivity | ].
      rewrite lookup_insert_ne by congruence.
      rewrite lookup_insert_ne by congruence.
      apply lookup_empty.
  - destruct (py_truthy username); simpl; [ | split; reflexivity].
    destruct (user_services.svc_get_user_settings_from_username svc
                username st) as [e | [us | ]]; simpl; split; reflexivity.
Qed.

(** C8.  A GET of [EditorPrerequisitesHandler] by an authenticated user
    with stored settings answers with a JSON object of exactly the two
    fields [has_agreed_to_terms] and [username]: the first is true iff
    the stored [last_agreed_to_terms] is present (not None), the second
    is the stored username, None when no username was set.  The only
    call is the read of the user's settings. *)
Theorem EditorPrerequisitesHandler_get_fields
    {S : Type} (svc : user_services.Service S) (st : S) (uid : string)
    (payload values : pydict) (us : UserSettings) :
  user_services.svc_get_user_settings svc uid st = inr (Some us) ->
  exists vals : pydict,
    run svc (EditorPrerequisitesHandler_get
               {| base.user_id := Some uid; base.payload := payload;
                  base.values := values |}) st
      = (inr (base.render_json vals), st,
         [Ev (user_services.get_user_settings uid)])
    /\ dom vals = ({[ "has_agreed_to_terms"; "username" ]} : gset string)
    /\ (exists b : bool,
          vals !! "has_agreed_to_terms" = Some (PBool b)
          /\ (b = true <-> last_agreed_to_terms us <> None))
    /\ vals !! "username" = Some (username us).
Proof.
  intros Hsettings.
  unfold EditorPrerequisitesHandler_get, base.require_user; simpl.
  rewrite Hsettings; simpl.
  eexists. split; [reflexivity | ].
  split; [ | split].
  - rewrite !dom_insert_L, dom_empty_L. set_solver.
  - exists (bool_of_timestamp (last_agreed_to_terms us)).
    split; [apply lookup_insert_eq | ].
    destruct (last_agreed_to_terms us); simpl; split; congruence.
  - rewrite lookup_insert_ne by discriminate. apply lookup_insert_eq.
Qed.

(** C10.  A payload without the [username] key is not rejected for the
    missing field: [UsernameCheckHandler.post] hands None to the static
    validator (and then to [is_username_taken]), and
    [EditorPrerequisitesHandler.post], once it reaches the username
    assignment, hands None to [set_username].  The outcome is the one
    these service operations give for None: their validation error as
    the invalid-input condition, any other exception as it is, and the
    normal response otherwise. *)
Theorem missing_username_is_passed_as_None
    {S : Type} (svc : user_services.Service S) (st : S) (uid : string)
    (payload values : pydict) :
  payload !! "username" = None ->
  let self := {| base.user_id := Some uid; base.payload := payload;
                 base.values := values |} in
  run svc (UsernameCheckHandler_post self) st
    = match user_services.svc_require_valid_username svc PNone with
      | inl e =>
          (match e with
           | ValidationError msg => inl (InvalidInputException msg)
           | _ => inl e
           end, st, [Ev (user_services.require_valid_username PNone)])
      | inr _ =>
          (match user_services.svc_is_username_taken svc PNone st with
           | inl e => inl e
           | inr taken =>
               inr (base.render_json
                      (<["username_is_taken" := PBool taken]> ∅))
           end, st,
           [Ev (user_services.require_valid_username PNone);
            Ev (user_services.is_username_taken PNone)])
      end
  /\ (forall (st1 : S) (current : pyval),
        dict_get payload "agreed_to_terms" = PBool true ->
        user_services.svc_record_agreement_to_terms svc uid st
          = (inr (), st1) ->
        user_services.svc_get_username svc uid st1 = inr current ->
        py_truthy current = false ->
        run svc (EditorPrerequisitesHandler_post self) st
          = (match (user_services.svc_set_username svc uid PNone st1).1 with
             | inl (ValidationError msg) => inl (InvalidInputException msg)
             | inl e => inl e
             | inr _ => inr (base.render_json ∅)
             end,
             (user_services.svc_set_username svc uid PNone st1).2,
             [Ev (user_services.record_agreement_to_terms uid);
              Ev (user_services.get_username uid);
              Ev (user_services.set_username uid PNone)])).
Proof.
  intros Hmissing self. subst self.
  assert (Hnone : dict_get payload "username" = PNone).
  { unfold dict_get. rewrite Hmissing. reflexivity. }
  split.
  - rewrite UsernameCheckHandler_post_run. simpl. rewrite Hnone. reflexivity.
  - intros st1 current Hagreed Hrec Hget Hfalsy.
    rewrite (EditorPrerequisitesHandler_post_run svc st uid payload values
               Hagreed).
    simpl. rewrite Hrec, Hget, Hfalsy, Hnone.
    destruct (user_services.svc_set_username svc uid PNone st1) as [r2 st2].
    reflexivity.
Qed.

(* ===================================================================== *)
(** ** Facts about the service model *)
(* ===================================================================== *)

Lemma keeps_usernames_refl (st : gmap string UserSettings) :
  keeps_usernames st st.
Proof. intros u us Hu _. eauto. Qed.

Lemma keeps_usernames_trans (st1 st2 st3 : gmap string UserSettings) :
  keeps_usernames st1 st2 -> keeps_usernames st2 st3 ->
  keeps_usernames st1 st3.
Proof.
  intros H12 H23 u us Hu Hset.
  destruct (H12 u us Hu Hset) as (us2 & Hu2 & Heq2).
  destruct (H23 u us2 Hu2) as (us3 & Hu3 & Heq3); [congruence | ].
  exists us3. split; [exact Hu3 | congruence].
Qed.

Lemma username_exists_iff (u : pyval) (st : gmap string UserSettings) :
  user_services_model.username_exists u st <->
  exists (uid : string) (us : UserSettings),
    st !! uid = Some us /\ username us = u.
Proof. unfold user_services_model.username_exists, map_Exists. tauto. Qed.

(** An update that leaves the username attribute alone keeps every
    username. *)
Lemma update_keeps_usernames (uid : string)
    (f : UserSettings -> UserSettings) (st : gmap string UserSettings) :
  (forall us, username (f us) = username us) ->
  keeps_usernames st (user_services_model.update uid f st).2.
Proof.
  intros Hf. unfold user_services_model.update.
  destruct (st !! uid) as [us0 | ] eqn:Huid; simpl;
    [ | apply keeps_usernames_refl].
  intros u us Hu Hset.
  destruct (decide (uid = u)) as [-> | Hne].
  - exists (f us0). rewrite lookup_insert_eq. split; [reflexivity | ].
    rewrite Hf. congruence.
  - exists us. rewrite lookup_insert_ne by exact Hne. split; [exact Hu | ].
    reflexivity.
Qed.

(** Such an update does not change which usernames exist. *)
Lemma update_username_exists (uid : string)
    (f : UserSettings -> UserSettings) (st : gmap string UserSettings)
    (u : pyval) :
  (forall us, username (f us) = username us) ->
  user_services_model.username_exists u
    (user_services_model.update uid f st).2
  <-> user_services_model.username_exists u st.
Proof.
  intros Hf. unfold user_services_model.update.
  destruct (st !! uid) as [us0 | ] eqn:Huid; simpl; [ | tauto].
  rewrite !username_exists_iff. split.
  - intros (k & us & Hk & Hname).
    destruct (decide (uid = k)) as [-> | Hne].
    + rewrite lookup_insert_eq in Hk. injection Hk as <-.
      exists k, us0. split; [exact Huid | ]. rewrite <- Hf. exact Hname.
    + rewrite lookup_insert_ne in Hk by exact Hne. eauto.
  - intros (k & us & Hk & Hname).
    destruct (decide (uid = k)) as [-> | Hne].
    + exists k, (f us0). rewrite lookup_insert_eq.
      split; [reflexivity | ]. rewrite Hf. congruence.
    + exists k, us. rewrite lookup_insert_ne by exact Hne. eauto.
Qed.

(** Assigning a username to a user who has none keeps the usernames of
    all the users who have one. *)
Lemma set_username_keeps_usernames
    (validate_username : pyval -> option message)
    (taken_message : pyval -> message) (uid : string) (v : pyval)
    (st : gmap string UserSettings) :
  (forall us, st !! uid = Some us -> py_truthy (username us) = false) ->
  keeps_usernames st
    (user_services_model.set_username validate_username taken_message
       uid v st).2.
Proof.
  intros Hunset. unfold user_services_model.set_username.
  destruct (validate_username v); simpl; [apply keeps_usernames_refl | ].
  destruct (bool_decide (user_services_model.username_exists v st)); simpl;
    [apply keeps_usernames_refl | ].
  unfold user_services_model.update.
  destruct (st !! uid) as [us0 | ] eqn:Huid; simpl;
    [ | apply keeps_usernames_refl].
  intros u us Hu Hset.
  destruct (decide (uid = u)) as [-> | Hne].
  - assert (Heq : us0 = us) by congruence. subst us0.
    rewrite (Hunset us eq_refl) in Hset. discriminate Hset.
  - exists us. rewrite lookup_insert_ne by exact Hne. eauto.
Qed.

(** The lookup by username finds settings with that username, and finds
    some whenever the username exists. *)
Lemma get_user_settings_from_username_Some (u : pyval)
    (st : gmap string UserSettings) (us : UserSettings) :
  user_services_model.get_user_settings_from_username u st = inr (Some us) ->
  username us = u /\ exists uid, st !! uid = Some us.
Proof.
  unfold user_services_model.get_user_settings_from_username.
  intros H. injection H as H.
  destruct (list_find (fun us => username us = u) (map_to_list st).*2)
    as [[i x] | ] eqn:Hfind; simpl in H; [ | discriminate H].
  injection H as ->.
  apply list_find_Some in Hfind as (Hi & Hname & _).
  split; [exact Hname | ].
  apply list_elem_of_lookup_2 in Hi.
  apply list_elem_of_fmap in Hi as ([k y] & -> & Hin).
  exists k. apply elem_of_map_to_list. exact Hin.
Qed.

Lemma get_user_settings_from_username_None (u : pyval)
    (st : gmap string UserSettings) :
  user_services_model.get_user_settings_from_username u st = inr None <->
  ~ user_services_model.username_exists u st.
Proof.
  unfold user_services_model.get_user_settings_from_username.
  rewrite username_exists_iff. split.
  - intros H. injection H as H.
    destruct (list_find (fun us => username us = u) (map_to_list st).*2)
      as [[i x] | ] eqn:Hfind; simpl in H; [discriminate H | ].
    apply list_find_None in Hfind. rewrite Forall_forall in Hfind.
    intros (k & us & Hk & Hname). apply (Hfind us); [ | exact Hname].
    apply list_elem_of_fmap. exists (k, us). split; [reflexivity | ].
    apply elem_of_map_to_list. exact Hk.
  - intros Hno.
    destruct (list_find (fun us => username us = u) (map_to_list st).*2)
      as [[i x] | ] eqn:Hfind; simpl; [ | reflexivity].
    exfalso. apply Hno.
    apply list_find_Some in Hfind as (Hi & Hname & _).
    apply list_elem_of_lookup_2 in Hi.
    apply list_elem_of_fmap in Hi as ([k y] & -> & Hin).
    exists k, y. split; [ | exact Hname].
    apply elem_of_map_to_list. exact Hin.
Qed.


(* ===================================================================== *)
(** ** Properties of the handlers over the service model *)
(* ===================================================================== *)

Section model_claims.

Variable validate_username : pyval -> option message.
Variable taken_message : pyval -> message.
Variable now : Z.

Local Abbreviation svc :=
  (user_services_model.service validate_username taken_message now).

(** No request served by the module changes a username that is set. *)
Lemma dispatch_keeps_usernames (cfg : feconf.t)
    (get_short_language_description : pyval -> pyval)
    (config_value : config_domain.ConfigProperty -> pyval)
    (req : request) (self : base.BaseHandler)
    (st : gmap string UserSettings) :
  keeps_usernames st
    (final_state
       (run svc (dispatch cfg get_short_language_description config_value
                   req self) st)).
Proof.
  destruct self as [[uid | ] payload values].
  2: { destruct req as [uname | | | | | | | ];
         try apply keeps_usernames_refl.
       unfold dispatch, ProfilePage_get, final_state; simpl.
       destruct (py_truthy uname); simpl;
         [ | apply keeps_usernames_refl].
       destruct (list_find _ _) as [[i x] | ]; simpl;
         apply keeps_usernames_refl. }
  destruct req as [uname | | | | | | | ]; unfold dispatch.
  - unfold ProfilePage_get, final_state; simpl.
    destruct (py_truthy uname); simpl; [ | apply keeps_usernames_refl].
    destruct (list_find _ _) as [[i x] | ]; simpl;
      apply keeps_usernames_refl.
  - apply keeps_usernames_refl.
  - unfold PreferencesHandler_get, final_state; simpl.
    destruct (st !! uid); simpl; apply keeps_usernames_refl.
  - unfold PreferencesHandler_put, base.require_user, final_state; simpl.
    destruct (py_eq_str (dict_get payload "update_type") "user_bio"); simpl.
    { pose proof (update_keeps_usernames uid
        (fun us => user_services_model.with_user_bio us
                     (dict_get payload "data")) st (fun _ => eq_refl)) as Hk.
      unfold user_services_model.update_user_bio.
      destruct (user_services_model.update uid _ st) as [[e | []] st1];
        exact Hk. }
    destruct (py_eq_str (dict_get payload "update_type")
                "preferred_language_codes"); simpl;
      [ | apply keeps_usernames_refl].
    pose proof (update_keeps_usernames uid
      (fun us => user_services_model.with_preferred_language_codes us
                   (dict_get payload "data")) st (fun _ => eq_refl)) as Hk.
    unfold user_services_model.update_preferred_language_codes.
    destruct (user_services_model.update uid _ st) as [[e | []] st1];
      exact Hk.
  - apply keeps_usernames_refl.
  - unfold EditorPrerequisitesHandler_get, final_state; simpl.
    destruct (st !! uid); simpl; apply keeps_usernames_refl.
  - destruct (decide (dict_get payload "agreed_to_terms" = PBool true))
      as [Hagreed | Hne].
    2: { rewrite EditorPrerequisitesHandler_post_refused by exact Hne.
         apply keeps_usernames_refl. }
    rewrite (EditorPrerequisitesHandler_post_run svc st uid payload values
               Hagreed).
    simpl.
    pose proof (update_keeps_usernames uid
      (fun us => user_services_model.with_last_agreed_to_terms us (Some now))
      st (fun _ => eq_refl)) as Hrec.
    unfold user_services_model.record_agreement_to_terms.
    destruct (user_services_model.update uid _ st) as [[e | []] st1];
      simpl in Hrec; [exact Hrec | ].
    unfold user_services_model.get_username.
    destruct (st1 !! uid) as [us1 | ] eqn:Hus1; [ | exact Hrec].
    destruct (py_truthy (username us1)) eqn:Hset; [exact Hrec | ].
    pose proof (set_username_keeps_usernames validate_username taken_message
                  uid (dict_get payload "username") st1) as Hk.
    destruct (user_services_model.set_username _ _ uid _ st1) as [r2 st2].
    unfold final_state; simpl.
    apply (keeps_usernames_trans _ st1 _ Hrec). apply Hk.
    intros us Hus. congruence.
  - rewrite UsernameCheckHandler_post_run. simpl.
    destruct (user_services_model.require_valid_username _ _);
      apply keeps_usernames_refl.
Qed.

(** C1.  A username that is set (a true value, as the handlers test
    it) is not changed by any request served by this module, whoever
    sends it and whatever it carries; in particular a POST to
    [EditorPrerequisitesHandler] by that user with [agreed_to_terms]
    true answers with the empty JSON object, not an error, and leaves
    the username as it was, whatever username the payload submits. *)
Theorem username_is_immutable_once_set
    (cfg : feconf.t) (get_short_language_description : pyval -> pyval)
    (config_value : config_domain.ConfigProperty -> pyval)
    (st : gmap string UserSettings) (u : string) (us : UserSettings) :
  st !! u = Some us ->
  py_truthy (username us) = true ->
  (forall (req : request) (self : base.BaseHandler),
     exists us',
       final_state
         (run svc (dispatch cfg get_short_language_description config_value
                     req self) st) !! u = Some us'
       /\ username us' = username us)
  /\ (forall payload values : pydict,
        dict_get payload "agreed_to_terms" = PBool true ->
        let res := run svc (EditorPrerequisitesHandler_post
                              {| base.user_id := Some u;
                                 base.payload := payload;
                                 base.values := values |}) st in
        outcome res = inr (base.render_json ∅)
        /\ Forall (fun ev => forall v,
                     ev <> Ev (user_services.set_username u v)) (trace res)
        /\ exists us', final_state res !! u = Some us'
                       /\ username us' = username us).
Proof.
  intros Hu Hset. split.
  - intros req self.
    exact (dispatch_keeps_usernames cfg get_short_language_description
             config_value req self st u us Hu Hset).
  - intros payload values Hagreed res.
    pose proof (dispatch_keeps_usernames cfg get_short_language_description
                  config_value POST_EditorPrerequisitesHandler
                  {| base.user_id := Some u; base.payload := payload;
                     base.values := values |} st u us Hu Hset) as Hkeep.
    simpl in Hkeep. fold res in Hkeep.
    split; [ | split; [ | exact Hkeep]]; subst res;
      rewrite (EditorPrerequisitesHandler_post_run svc st u payload values
                 Hagreed); simpl;
      unfold user_services_model.record_agreement_to_terms,
        user_services_model.update, user_services_model.get_username;
      rewrite Hu; simpl; rewrite lookup_insert_eq; simpl; rewrite Hset.
    + reflexivity.
    + unfold trace; simpl.
      repeat constructor; intros v Hev; inversion Hev.
Qed.

(** C6.  A POST to [UsernameCheckHandler] by an authenticated user: a
    username that the static validator rejects raises the invalid-input
    condition with the validation message; otherwise the response is a
    JSON object whose [username_is_taken] is true iff some stored user
    settings have that username.  The stored settings are unchanged. *)
Theorem UsernameCheckHandler_post_taken
    (st : gmap string UserSettings) (uid : string)
    (payload values : pydict) :
  let submitted := dict_get payload "username" in
  let res := run svc (UsernameCheckHandler_post
                        {| base.user_id := Some uid;
                           base.payload := payload;
                           base.values := values |}) st in
  (forall msg, validate_username submitted = Some msg ->
     res = (inl (InvalidInputException msg), st,
            [Ev (user_services.require_valid_username submitted)]))
  /\ (validate_username submitted = None ->
      exists taken : bool,
        res = (inr (base.render_json
                      (<["username_is_taken" := PBool taken]> ∅)), st,
               [Ev (user_services.require_valid_username submitted);
                Ev (user_services.is_username_taken submitted)])
        /\ (taken = true <->
            exists (uid' : string) (us : UserSettings),
              st !! uid' = Some us /\ username us = submitted)).
Proof.
  intros submitted res. subst res.
  rewrite UsernameCheckHandler_post_run. simpl. fold submitted.
  unfold user_services_model.require_valid_username.
  split.
  - intros msg Hbad. rewrite Hbad. reflexivity.
  - intros Hok. rewrite Hok. simpl.
    exists (bool_decide (user_services_model.username_exists submitted st)).
    split; [reflexivity | ].
    rewrite bool_decide_eq_true. exact (username_exists_iff submitted st).
Qed.

(** C7.  After a successful PUT to [PreferencesHandler] with
    [update_type] ['user_bio'], a GET of [PreferencesHandler] by the
    same user answers with a JSON object whose [user_bio] is the data
    that was submitted, whatever that value is. *)
Theorem PreferencesHandler_put_get_user_bio
    (st st' : gmap string UserSettings) (uid : string)
    (payload values payload' values' : pydict)
    (r : base.response) (tr : list user_services.event) :
  dict_get payload "update_type" = PStr "user_bio" ->
  run svc (PreferencesHandler_put
             {| base.user_id := Some uid; base.payload := payload;
                base.values := values |}) st = (inr r, st', tr) ->
  exists vals : pydict,
    run svc (PreferencesHandler_get
               {| base.user_id := Some uid; base.payload := payload';
                  base.values := values' |}) st'
      = (inr (base.render_json vals), st',
         [Ev (user_services.get_user_settings uid)])
    /\ vals !! "user_bio" = Some (dict_get payload "data").
Proof.
  intros Htype Hput.
  unfold PreferencesHandler_put, base.require_user in Hput; simpl in Hput.
  rewrite Htype in Hput; simpl in Hput.
  unfold user_services_model.update_user_bio, user_services_model.update
    in Hput.
  destruct (st !! uid) as [us | ] eqn:Hus; simpl in Hput;
    [ | discriminate Hput].
  injection Hput as <- <- <-.
  unfold PreferencesHandler_get, base.require_user; simpl.
  rewrite lookup_insert_eq; simpl.
  eexists. split; [reflexivity | ].
  unfold dict_update. apply lookup_union_Some_l. apply lookup_insert_eq.
Qed.

(** C9.  A POST to [EditorPrerequisitesHandler] with [agreed_to_terms]
    true, by a user with stored settings and no username, whose
    submitted username fails validation (rejected by the validator, or
    already taken): the request fails with the invalid-input condition,
    yet the agreement recorded before the username was looked at stays
    in the stored settings. *)
Theorem EditorPrerequisitesHandler_post_not_atomic
    (st : gmap string UserSettings) (uid : string) (us : UserSettings)
    (payload values : pydict) (msg : message) :
  let submitted := dict_get payload "username" in
  st !! uid = Some us ->
  py_truthy (username us) = false ->
  dict_get payload "agreed_to_terms" = PBool true ->
  (validate_username submitted = Some msg
   \/ (validate_username submitted = None
       /\ user_services_model.username_exists submitted st
       /\ msg = taken_message submitted)) ->
  let res := run svc (EditorPrerequisitesHandler_post
                        {| base.user_id := Some uid;
                           base.payload := payload;
                           base.values := values |}) st in
  outcome res = inl (InvalidInputException msg)
  /\ trace res = [Ev (user_services.record_agreement_to_terms uid);
                  Ev (user_services.get_username uid);
                  Ev (user_services.set_username uid submitted)]
  /\ final_state res
     = <[uid := user_services_model.with_last_agreed_to_terms us (Some now)]>
         st
  /\ exists us', final_state res !! uid = Some us'
                 /\ last_agreed_to_terms us' = Some now.
Proof.
  intros submitted Hu Hunset Hagreed Hfails res.
  assert (Hres : res =
    (inl (InvalidInputException msg),
     <[uid := user_services_model.with_last_agreed_to_terms us (Some now)]>
       st,
     [Ev (user_services.record_agreement_to_terms uid);
      Ev (user_services.get_username uid);
      Ev (user_services.set_username uid submitted)])).
  { subst res.
    rewrite (EditorPrerequisitesHandler_post_run svc st uid payload values
               Hagreed).
    simpl. fold submitted.
    pose proof (update_username_exists uid
      (fun us => user_services_model.with_last_agreed_to_terms us (Some now))
      st submitted (fun _ => eq_refl)) as Hexists.
    unfold user_services_model.record_agreement_to_terms.
    unfold user_services_model.update in *.
    rewrite Hu in *. simpl in *.
    unfold user_services_model.get_username.
    rewrite lookup_insert_eq. simpl. rewrite Hunset.
    unfold user_services_model.set_username.
    destruct Hfails as [Hbad | (Hok & Htaken & ->)].
    - rewrite Hbad. reflexivity.
    - rewrite Hok. apply Hexists in Htaken.
      rewrite (bool_decide_eq_true_2 _ Htaken). reflexivity. }
  rewrite Hres. unfold outcome, trace, final_state; simpl.
  repeat split.
  eexists. rewrite lookup_insert_eq. split; reflexivity.
Qed.

End model_claims.

(* ===================================================================== *)
(** ** The properties at work on the example store *)
(* ===================================================================== *)

Lemma username_is_immutable_once_set_witness :
  example.users !! "uid_alice" = Some example.alice
  /\ py_truthy (username example.alice) = true
  /\ outcome (run example.service
                (EditorPrerequisitesHandler_post
                   {| base.user_id := Some "uid_alice";
                      base.payload := example.agree_as (PStr "bob");
                      base.values := ∅ |}) example.users)
     = inr (base.render_json ∅).
Proof.
  assert (H1 : example.users !! "uid_alice" = Some example.alice)
    by (vm_compute; reflexivity).
  assert (H2 : py_truthy (username example.alice) = true)
    by (vm_compute; reflexivity).
  split; [exact H1 | split; [exact H2 | ]].
  refine (proj1 (proj2 (username_is_immutable_once_set
            example.validate_username example.taken_message example.now
            example.cfg (fun v => v) config_domain.default_value
            example.users "uid_alice" example.alice H1 H2)
            (example.agree_as (PStr "bob")) ∅ _)).
  vm_compute; reflexivity.
Defined.

Lemma EditorPrerequisitesHandler_post_terms_gate_witness :
  run example.service
    (EditorPrerequisitesHandler_post
       {| base.user_id := Some "uid_new";
          base.payload := example.truthy_string_terms;
          base.values := ∅ |}) example.users
  = (inl (InvalidInputException terms_message), example.users, []).
Proof.
  refine (proj1 (EditorPrerequisitesHandler_post_terms_gate example.service
            example.users "uid_new" example.truthy_string_terms ∅) _).
  vm_compute. discriminate.
Defined.

Lemma EditorPrerequisitesHandler_post_set_username_witness :
  outcome (run example.service
             (EditorPrerequisitesHandler_post
                {| base.user_id := Some "uid_new";
                   base.payload := example.agree_as (PStr "");
                   base.values := ∅ |}) example.users)
  = inl (InvalidInputException (Msg "Empty username supplied.")).
Proof.
  refine (proj1 (proj2 (proj2
            (EditorPrerequisitesHandler_post_set_username example.service
               example.users example.users_agreed example.users_agreed
               "uid_new" (example.agree_as (PStr "")) ∅ PNone
               (inl (ValidationError (Msg "Empty username supplied.")))
               _ _ _ _ _))) _ eq_refl);
    vm_compute; reflexivity.
Defined.

Lemma PreferencesHandler_put_dispatch_witness :
  run example.service
    (PreferencesHandler_put
       {| base.user_id := Some "uid_new";
          base.payload := example.put_unknown;
          base.values := ∅ |}) example.users
  = (inl (InvalidInputException
            (MsgFormat "Invalid update type: %s" (PStr "email"))),
     example.users, [])
  /\ trace (run example.service
              (PreferencesHandler_put
                 {| base.user_id := Some "uid_new";
                    base.payload := example.put_bio;
                    base.values := ∅ |}) example.users)
     = [Ev (user_services.update_user_bio "uid_new" (PStr "hello"))].
Proof.
  split.
  - refine (proj1 (proj2 (proj2 (PreferencesHandler_put_dispatch
              example.service example.users "uid_new" example.put_unknown ∅)))
              _ _); vm_compute; discriminate.
  - refine (proj1 (proj1 (PreferencesHandler_put_dispatch
              example.service example.users "uid_new" example.put_bio ∅) _)).
    vm_compute; reflexivity.
Defined.

Lemma ProfilePage_get_not_found_or_bio_witness :
  run example.service
    (ProfilePage_get example.cfg (example.request_of None ∅) (PStr ""))
    example.users
  = (inl PageNotFoundException, example.users, [])
  /\ run example.service
       (ProfilePage_get example.cfg (example.request_of None ∅) (PStr "zed"))
       example.users
     = (inl PageNotFoundException, example.users,
        [Ev (user_services.get_user_settings_from_username (PStr "zed"))])
  /\ exists vals : pydict,
       run example.service
         (ProfilePage_get example.cfg (example.request_of None ∅)
            (PStr "alice")) example.users
       = (inr (base.render_template "profile/profile.html" vals),
          example.users,
          [Ev (user_services.get_user_settings_from_username (PStr "alice"))])
       /\ vals !! "nav_mode" = Some (PStr "profile")
       /\ vals !! "user_bio" = Some (PStr "I like maps.")
       /\ (forall key, key <> "nav_mode" -> key <> "user_bio" ->
             vals !! key = (∅ : pydict) !! key).
Proof.
  split; [ | split].
  - refine (proj1 (ProfilePage_get_not_found_or_bio example.service
              example.cfg example.users (example.request_of None ∅)
              (PStr "")) _).
    vm_compute; reflexivity.
  - refine (proj1 (proj2 (ProfilePage_get_not_found_or_bio example.service
              example.cfg example.users (example.request_of None ∅)
              (PStr "zed"))) _ _); vm_compute; reflexivity.
  - refine (proj1 (proj2 (proj2 (ProfilePage_get_not_found_or_bio
              example.service example.cfg example.users
              (example.request_of None ∅) (PStr "alice")))) example.alice
              _ _); vm_compute; reflexivity.
Defined.

Lemma UsernameCheckHandler_post_taken_witness :
  run example.service
    (UsernameCheckHandler_post
       {| base.user_id := Some "uid_new";
          base.payload := <["username" := PStr ""]> ∅;
          base.values := ∅ |}) example.users
  = (inl (InvalidInputException (Msg "Empty username supplied.")),
     example.users,
     [Ev (user_services.require_valid_username (PStr ""))])
  /\ exists taken : bool,
       run example.service
         (UsernameCheckHandler_post
            {| base.user_id := Some "uid_new";
               base.payload := <["username" := PStr "alice"]> ∅;
               base.values := ∅ |}) example.users
       = (inr (base.render_json (<["username_is_taken" := PBool taken]> ∅)),
          example.users,
          [Ev (user_services.require_valid_username (PStr "alice"));
           Ev (user_services.is_username_taken (PStr "alice"))])
       /\ (taken = true <->
           exists (uid' : string) (us : UserSettings),
             example.users !! uid' = Some us /\ username us = PStr "alice").
Proof.
  split.
  - refine (proj1 (UsernameCheckHandler_post_taken example.validate_username
              example.taken_message example.now example.users "uid_new"
              (<["username" := PStr ""]> ∅) ∅) _ _).
    vm_compute; reflexivity.
  - refine (proj2 (UsernameCheckHandler_post_taken example.validate_username
              example.taken_message example.now example.users "uid_new"
              (<["username" := PStr "alice"]> ∅) ∅) _).
    vm_compute; reflexivity.
Defined.

Lemma PreferencesHandler_put_get_user_bio_witness :
  exists vals : pydict,
    run example.service
      (PreferencesHandler_get
         {| base.user_id := Some "uid_new"; base.payload := ∅;
            base.values := ∅ |}) example.users_bio
    = (inr (base.render_json vals), example.users_bio,
       [Ev (user_services.get_user_settings "uid_new")])
    /\ vals !! "user_bio" = Some (dict_get example.put_bio "data").
Proof.
  refine (PreferencesHandler_put_get_user_bio example.validate_username
            example.taken_message example.now example.users example.users_bio
            "uid_new" example.put_bio ∅ ∅ ∅ base.no_response
            [Ev (user_services.update_user_bio "uid_new" (PStr "hello"))]
            _ _); vm_compute; reflexivity.
Defined.

Lemma EditorPrerequisitesHandler_get_fields_witness :
  exists vals : pydict,
    run example.service
      (EditorPrerequisitesHandler_get
         {| base.user_id := Some "uid_new"; base.payload := ∅;
            base.values := ∅ |}) example.users
    = (inr (base.render_json vals), example.users,
       [Ev (user_services.get_user_settings "uid_new")])
    /\ dom vals = ({[ "has_agreed_to_terms"; "username" ]} : gset string)
    /\ (exists b : bool,
          vals !! "has_agreed_to_terms" = Some (PBool b)
          /\ (b = true <-> last_agreed_to_terms example.newcomer <> None))
    /\ vals !! "username" = Some (username example.newcomer).
Proof.
  refine (EditorPrerequisitesHandler_get_fields example.service example.users
            "uid_new" ∅ ∅ example.newcomer _).
  vm_compute; reflexivity.
Defined.

Lemma EditorPrerequisitesHandler_post_not_atomic_witness :
  last_agreed_to_terms example.newcomer = None
  /\ outcome (run example.service
                (EditorPrerequisitesHandler_post
                   {| base.user_id := Some "uid_new";
                      base.payload := example.agree_as (PStr "alice");
                      base.values := ∅ |}) example.users)
     = inl (InvalidInputException (example.taken_message (PStr "alice")))
  /\ final_state (run example.service
                    (EditorPrerequisitesHandler_post
                       {| base.user_id := Some "uid_new";
                          base.payload := example.agree_as (PStr "alice");
                          base.values := ∅ |}) example.users)
     = example.users_agreed.
Proof.
  split; [reflexivity | ].
  assert (Hfails :
    example.validate_username (dict_get (example.agree_as (PStr "alice"))
                                 "username")
      = Some (example.taken_message (PStr "alice"))
    \/ (example.validate_username (dict_get (example.agree_as (PStr "alice"))
                                     "username") = None
        /\ user_services_model.username_exists
             (dict_get (example.agree_as (PStr "alice")) "username")
             example.users
        /\ example.taken_message (PStr "alice")
           = example.taken_message
               (dict_get (example.agree_as (PStr "alice")) "username"))).
  { right. split; [vm_compute; reflexivity | split].
    - apply username_exists_iff. exists "uid_alice", example.alice.
      split; vm_compute; reflexivity.
    - vm_compute; reflexivity. }
  pose proof (EditorPrerequisitesHandler_post_not_atomic
                example.validate_username example.taken_message example.now
                example.users "uid_new" example.newcomer
                (example.agree_as (PStr "alice")) ∅
                (example.taken_message (PStr "alice"))
                ltac:(vm_compute; reflexivity) ltac:(vm_compute; reflexivity)
                ltac:(vm_compute; reflexivity) Hfails) as (Hout & _ & Hfin & _).
  split; [exact Hout | exact Hfin].
Defined.

Lemma missing_username_is_passed_as_None_witness :
  run example.service
    (UsernameCheckHandler_post
       {| base.user_id := Some "uid_new"; base.payload := ∅;
          base.values := ∅ |}) example.users
  = (inl (InvalidInputException (Msg "Empty username supplied.")),
     example.users,
     [Ev (user_services.require_valid_username PNone)])
  /\ run example.service
       (EditorPrerequisitesHandler_post
          {| base.user_id := Some "uid_new";
             base.payload := example.agree_only;
             base.values := ∅ |}) example.users
     = (inl (InvalidInputException (Msg "Empty username supplied.")),
        example.users_agreed,
        [Ev (user_services.record_agreement_to_terms "uid_new");
         Ev (user_services.get_username "uid_new");
         Ev (user_services.set_username "uid_new" PNone)]).
Proof.
  split.
  - refine (proj1 (missing_username_is_passed_as_None example.service
              example.users "uid_new" ∅ ∅ _)).
    vm_compute; reflexivity.
  - refine (proj2 (missing_username_is_passed_as_None example.service
              example.users "uid_new" example.agree_only ∅ _)
              example.users_agreed PNone _ _ _ _); vm_compute; reflexivity.
Defined.

(* ===================================================================== *)
(** ** Further properties, for every service implementation *)
(* ===================================================================== *)

Lemma lookup_map {A B : Type} (f : A -> B) (l : list A) (i : nat) :
  map f l !! i = f <$> l !! i.
Proof.
  revert i. induction l as [ | a l IH]; intros [ | i]; simpl;
    try reflexivity.
  apply IH.
Qed.

(** Case analysis on what the service answers and on the tests a handler
    makes. *)
Ltac service_cases :=
  repeat match goal with
  | |- context [match ?x with _ => _ end] =>
      first
        [ is_var x; destruct x
        | lazymatch x with
          | user_services.svc_get_user_settings_from_username _ _ _ => idtac
          | user_services.svc_get_user_settings _ _ _ => idtac
          | user_services.svc_update_user_bio _ _ _ _ => idtac
          | user_services.svc_update_preferred_language_codes _ _ _ _ => idtac
          | user_services.svc_record_agreement_to_terms _ _ _ => idtac
          | user_services.svc_get_username _ _ _ => idtac
          | user_services.svc_set_username _ _ _ _ => idtac
          | user_services.svc_require_valid_username _ _ => idtac
          | user_services.svc_is_username_taken _ _ _ => idtac
          | py_truthy _ => idtac
          | negb (py_truthy _) => idtac
          | py_eq_str _ _ => idtac
          end; destruct x ]; simpl
  end.

(** X1.  A GET of [PreferencesPage] by an authenticated user calls
    nothing and renders the preferences template; its
    [LANGUAGE_CODES_AND_NAMES] is a list with one entry per language of
    the catalogue, in the catalogue's order, each a dict of the
    language's code and the short form of its description; [nav_mode] is
    set and the other template values are left as they were. *)
Theorem PreferencesPage_get_languages
    {S : Type} (svc : user_services.Service S) (cfg : feconf.t)
    (get_short_language_description : pyval -> pyval) (st : S)
    (uid : string) (payload values : pydict) :
  exists (vals : pydict) (names : list pyval),
    run svc (PreferencesPage_get cfg get_short_language_description
               {| base.user_id := Some uid; base.payload := payload;
                  base.values := values |}) st
      = (inr (base.render_template "profile/preferences.html" vals), st, [])
    /\ vals !! "LANGUAGE_CODES_AND_NAMES" = Some (PList names)
    /\ length names = length (feconf.ALL_LANGUAGE_CODES cfg)
    /\ (forall (i : nat) (lc : feconf.language),
          feconf.ALL_LANGUAGE_CODES cfg !! i = Some lc ->
          names !! i
            = Some (PDict [("code", feconf.code lc);
                           ("name", get_short_language_description
                                      (feconf.description lc))]))
    /\ vals !! "nav_mode" = Some (feconf.NAV_MODE_PROFILE cfg)
    /\ (forall key, key <> "nav_mode" ->
          key <> "LANGUAGE_CODES_AND_NAMES" ->
          vals !! key = values !! key).
Proof.
  unfold PreferencesPage_get, base.require_user; simpl.
  eexists. eexists. split; [reflexivity | ].
  unfold dict_update.
  split; [ | split; [ | split; [ | split]]].
  - apply lookup_union_Some_l. rewrite lookup_insert_ne by discriminate.
    apply lookup_insert_eq.
  - apply length_map.
  - intros i lc Hi. rewrite lookup_map, Hi. reflexivity.
  - apply lookup_union_Some_l. apply lookup_insert_eq.
  - intros key Hnav Hlang. rewrite lookup_union_r; [reflexivity | ].
    rewrite lookup_insert_ne by congruence.
    rewrite lookup_insert_ne by congruence.
    apply lookup_empty.
Qed.

(** X2.  A GET of [EditorPrerequisitesPage] by an authenticated user
    calls nothing and renders the editor prerequisites template with the
    value configured for the property named
    ['editor_prerequisites_agreement'] as [agreement]; a value that the
    template values already held under [agreement] or [nav_mode] is
    replaced, the others are left as they were. *)
Theorem EditorPrerequisitesPage_get_agreement
    {S : Type} (svc : user_services.Service S) (cfg : feconf.t)
    (config_value : config_domain.ConfigProperty -> pyval) (st : S)
    (uid : string) (payload values : pydict) :
  exists vals : pydict,
    run svc (EditorPrerequisitesPage_get cfg config_value
               {| base.user_id := Some uid; base.payload := payload;
                  base.values := values |}) st
      = (inr (base.render_template "profile/editor_prerequisites.html" vals),
         st, [])
    /\ (exists prop : config_domain.ConfigProperty,
          config_domain.name prop = "editor_prerequisites_agreement"
          /\ config_domain.default_value prop
             = feconf.DEFAULT_EDITOR_PREREQUISITES_AGREEMENT cfg
          /\ vals !! "agreement" = Some (config_value prop))
    /\ vals !! "nav_mode" = Some (feconf.NAV_MODE_PROFILE cfg)
    /\ (forall key, key <> "nav_mode" -> key <> "agreement" ->
          vals !! key = values !! key).
Proof.
  unfold EditorPrerequisitesPage_get, base.require_user; simpl.
  eexists. split; [reflexivity | ].
  unfold dict_update.
  split; [ | split].
  - exists (EDITOR_PREREQUISITES_AGREEMENT cfg).
    split; [reflexivity | split; [reflexivity | ]].
    apply lookup_union_Some_l. apply lookup_insert_eq.
  - apply lookup_union_Some_l. rewrite lookup_insert_ne by discriminate.
    apply lookup_insert_eq.
  - intros key Hnav Hagr. rewrite lookup_union_r; [reflexivity | ].
    rewrite lookup_insert_ne by congruence.
    rewrite lookup_insert_ne by congruence.
    apply lookup_empty.
Qed.

(** X3.  A GET of [PreferencesHandler] by an authenticated user whose
    settings the service returns makes that one call and answers with
    the handler's values updated with the stored [user_bio] and
    [preferred_language_codes]: a value already held under one of these
    two keys is replaced, and every other value the handler held is part
    of the JSON as well. *)
Theorem PreferencesHandler_get_fields
    {S : Type} (svc : user_services.Service S) (st : S) (uid : string)
    (payload values : pydict) (us : UserSettings) :
  user_services.svc_get_user_settings svc uid st = inr (Some us) ->
  exists vals : pydict,
    run svc (PreferencesHandler_get
               {| base.user_id := Some uid; base.payload := payload;
                  base.values := values |}) st
      = (inr (base.render_json vals), st,
         [Ev (user_services.get_user_settings uid)])
    /\ vals !! "user_bio" = Some (user_bio us)
    /\ vals !! "preferred_language_codes"
       = Some (preferred_language_codes us)
    /\ (forall key, key <> "user_bio" -> key <> "preferred_language_codes" ->
          vals !! key = values !! key).
Proof.
  intros Hsettings.
  unfold PreferencesHandler_get, base.require_user; simpl.
  rewrite Hsettings; simpl.
  eexists. split; [reflexivity | ].
  unfold dict_update.
  split; [ | split].
  - apply lookup_union_Some_l. apply lookup_insert_eq.
  - apply lookup_union_Some_l. rewrite lookup_insert_ne by discriminate.
    apply lookup_insert_eq.
  - intros key Hbio Hcodes. rewrite lookup_union_r; [reflexivity | ].
    rewrite lookup_insert_ne by congruence.
    rewrite lookup_insert_ne by congruence.
    apply lookup_empty.
Qed.

(** X4.  When the service has no settings for the authenticated user
    (it returns None), the GET of [PreferencesHandler] and the GET of
    [EditorPrerequisitesHandler] do not answer not-found or invalid-input:
    the attribute access on None raises an AttributeError that nothing
    catches, after the one read, and nothing is rendered. *)
Theorem get_without_settings_raises_AttributeError
    {S : Type} (svc : user_services.Service S) (st : S) (uid : string)
    (payload values : pydict) :
  user_services.svc_get_user_settings svc uid st = inr None ->
  let self := {| base.user_id := Some uid; base.payload := payload;
                 base.values := values |} in
  (exists msg,
     run svc (PreferencesHandler_get self) st
       = (inl (AttributeError msg), st,
          [Ev (user_services.get_user_settings uid)]))
  /\ (exists msg,
        run svc (EditorPrerequisitesHandler_get self) st
          = (inl (AttributeError msg), st,
             [Ev (user_services.get_user_settings uid)])).
Proof.
  intros Hnone self. subst self.
  unfold PreferencesHandler_get, EditorPrerequisitesHandler_get,
    base.require_user; simpl.
  rewrite Hnone; simpl.
  split; eexists; reflexivity.
Qed.

(** X5.  Only the profile page is served without a logged-in user: for a
    request with no user bound, every other handler stops at the login
    requirement before any call to the service, whereas what
    [ProfilePage] answers does not depend on who asks nor on the
    payload. *)
Theorem only_ProfilePage_is_public
    {S : Type} (svc : user_services.Service S) (cfg : feconf.t)
    (get_short_language_description : pyval -> pyval)
    (config_value : config_domain.ConfigProperty -> pyval) (st : S)
    (payload values : pydict) :
  let anonymous := {| base.user_id := None; base.payload := payload;
                      base.values := values |} in
  (forall req : request,
     (forall username, req <> GET_ProfilePage username) ->
     run svc (dispatch cfg get_short_language_description config_value
                req anonymous) st
       = (inl UnauthorizedUserException, st, []))
  /\ (forall (username : pyval) (user : option string) (payload' : pydict),
        run svc (dispatch cfg get_short_language_description config_value
                   (GET_ProfilePage username)
                   {| base.user_id := user; base.payload := payload';
                      base.values := values |}) st
        = run svc (dispatch cfg get_short_language_description config_value
                     (GET_ProfilePage username) anonymous) st).
Proof.
  intros anonymous. split.
  - intros req Hreq.
    destruct req as [username | | | | | | | ]; try reflexivity.
    exfalso. exact (Hreq username eq_refl).
  - intros username user payload'. reflexivity.
Qed.

(** The requests other than the PUT of the preferences and the POST of
    the editor prerequisites call no update operation. *)
Lemma read_requests_call_no_update
    {S : Type} (svc : user_services.Service S) (cfg : feconf.t)
    (get_short_language_description : pyval -> pyval)
    (config_value : config_domain.ConfigProperty -> pyval) (st : S)
    (req : request) (self : base.BaseHandler) :
  req <> PUT_PreferencesHandler ->
  req <> POST_EditorPrerequisitesHandler ->
  Forall (fun ev => user_services.is_update ev = false)
    (trace (run svc (dispatch cfg get_short_language_description
                       config_value req self) st)).
Proof.
  intros Hput Hpost. unfold trace.
  destruct self as [[uid | ] payload values];
    destruct req as [username | | | | | | | ];
    try contradiction;
    unfold dispatch, ProfilePage_get, PreferencesPage_get,
      PreferencesHandler_get, EditorPrerequisitesPage_get,
      EditorPrerequisitesHandler_get, UsernameCheckHandler_post,
      base.require_user; simpl;
    service_cases; repeat constructor.
Qed.

Lemma read_requests_keep_state
    {S : Type} (svc : user_services.Service S) (cfg : feconf.t)
    (get_short_language_description : pyval -> pyval)
    (config_value : config_domain.ConfigProperty -> pyval) (st : S)
    (req : request) (self : base.BaseHandler) :
  req <> PUT_PreferencesHandler ->
  req <> POST_EditorPrerequisitesHandler ->
  final_state (run svc (dispatch cfg get_short_language_description
                          config_value req self) st) = st.
Proof.
  intros Hput Hpost. apply run_queries_only.
  pose proof (read_requests_call_no_update svc cfg
                get_short_language_description config_value st req self
                Hput Hpost) as Hreads.
  induction Hreads as [ | ev tr Hev _ IH]; simpl; [reflexivity | ].
  rewrite Hev, IH. reflexivity.
Qed.

(** X6.  The GET handlers and the username check are read-only for
    every service implementation: apart from the PUT of
    [PreferencesHandler] and the POST of [EditorPrerequisitesHandler], no
    request calls an update operation, and the service state after the
    request is the state before it, also when the request fails. *)
Theorem read_requests_never_update
    {S : Type} (svc : user_services.Service S) (cfg : feconf.t)
    (get_short_language_description : pyval -> pyval)
    (config_value : config_domain.ConfigProperty -> pyval) (st : S)
    (req : request) (self : base.BaseHandler) :
  req <> PUT_PreferencesHandler ->
  req <> POST_EditorPrerequisitesHandler ->
  let res := run svc (dispatch cfg get_short_language_description
                        config_value req self) st in
  final_state res = st
  /\ Forall (fun ev => user_services.is_update ev = false) (trace res).
Proof.
  intros Hput Hpost res. subst res. split.
  - apply read_requests_keep_state; assumption.
  - apply read_requests_call_no_update; assumption.
Qed.

(** X7.  A handler acts for the requesting user only: in every request,
    for every service implementation, each service call that takes a
    user id is made with the id of the user bound to the request, so no
    request reads or updates the settings of another user by id. *)
Theorem calls_are_for_the_requesting_user
    {S : Type} (svc : user_services.Service S) (cfg : feconf.t)
    (get_short_language_description : pyval -> pyval)
    (config_value : config_domain.ConfigProperty -> pyval) (st : S)
    (req : request) (self : base.BaseHandler) :
  Forall (fun ev => forall uid, call_user_id ev = Some uid ->
                      base.user_id self = Some uid)
    (trace (run svc (dispatch cfg get_short_language_description
                       config_value req self) st)).
Proof.
  unfold trace.
  destruct self as [[uid | ] payload values];
    destruct req as [username | | | | | | | ];
    unfold dispatch, ProfilePage_get, PreferencesPage_get,
      PreferencesHandler_get, PreferencesHandler_put,
      EditorPrerequisitesPage_get, EditorPrerequisitesHandler_get,
      EditorPrerequisitesHandler_post, UsernameCheckHandler_post,
      base.require_user; simpl;
    try (destruct (negb (isinstance_bool
                           (dict_get payload "agreed_to_terms"))
                   || negb (py_truthy (dict_get payload "agreed_to_terms")));
         simpl);
    service_cases;
    repeat constructor; simpl; intros uid' Hev;
    try discriminate Hev; congruence.
Qed.

(** X8.  A POST to [EditorPrerequisitesHandler] with [agreed_to_terms]
    true stops at the first step that does not go through: an exception
    of [record_agreement_to_terms] or of [get_username] is not caught and
    no later call is made; and when [get_username] gives a true value the
    handler answers with the empty JSON object without calling
    [set_username], so the submitted username is never looked at. *)
Theorem EditorPrerequisitesHandler_post_short_circuits
    {S : Type} (svc : user_services.Service S) (st : S) (uid : string)
    (payload values : pydict) :
  dict_get payload "agreed_to_terms" = PBool true ->
  let res := run svc (EditorPrerequisitesHandler_post
                        {| base.user_id := Some uid; base.payload := payload;
                           base.values := values |}) st in
  (forall (e : exn) (st1 : S),
     user_services.svc_record_agreement_to_terms svc uid st = (inl e, st1) ->
     res = (inl e, st1, [Ev (user_services.record_agreement_to_terms uid)]))
  /\ (forall (e : exn) (st1 : S),
        user_services.svc_record_agreement_to_terms svc uid st
          = (inr (), st1) ->
        user_services.svc_get_username svc uid st1 = inl e ->
        res = (inl e, st1, [Ev (user_services.record_agreement_to_terms uid);
                            Ev (user_services.get_username uid)]))
  /\ (forall (current : pyval) (st1 : S),
        user_services.svc_record_agreement_to_terms svc uid st
          = (inr (), st1) ->
        user_services.svc_get_username svc uid st1 = inr current ->
        py_truthy current = true ->
        res = (inr (base.render_json ∅), st1,
               [Ev (user_services.record_agreement_to_terms uid);
                Ev (user_services.get_username uid)])).
Proof.
  intros Hagreed res. subst res.
  rewrite (EditorPrerequisitesHandler_post_run svc st uid payload values
             Hagreed).
  simpl.
  split; [ | split].
  - intros e st1 Hrec. rewrite Hrec. reflexivity.
  - intros e st1 Hrec Hget. rewrite Hrec, Hget. reflexivity.
  - intros current st1 Hrec Hget Hset. rewrite Hrec, Hget, Hset. reflexivity.
Qed.

(** X9.  A POST to [UsernameCheckHandler], for every service
    implementation: when the validator raises, [is_username_taken] is
    not called, and only a validation error is turned into the
    invalid-input condition, any other exception staying as it is; when
    the validator accepts the username, the response carries exactly the
    answer of [is_username_taken], and an exception of that call is not
    caught. *)
Theorem UsernameCheckHandler_post_validates_first
    {S : Type} (svc : user_services.Service S) (st : S) (uid : string)
    (payload values : pydict) :
  let submitted := dict_get payload "username" in
  let res := run svc (UsernameCheckHandler_post
                        {| base.user_id := Some uid; base.payload := payload;
                           base.values := values |}) st in
  (forall msg,
     user_services.svc_require_valid_username svc submitted
       = inl (ValidationError msg) ->
     res = (inl (InvalidInputException msg), st,
            [Ev (user_services.require_valid_username submitted)]))
  /\ (forall e,
        user_services.svc_require_valid_username svc submitted = inl e ->
        (forall msg, e <> ValidationError msg) ->
        res = (inl e, st,
               [Ev (user_services.require_valid_username submitted)]))
  /\ (forall taken : bool,
        user_services.svc_require_valid_username svc submitted = inr () ->
        user_services.svc_is_username_taken svc submitted st = inr taken ->
        res = (inr (base.render_json
                      (<["username_is_taken" := PBool taken]> ∅)), st,
               [Ev (user_services.require_valid_username submitted);
                Ev (user_services.is_username_taken submitted)]))
  /\ (forall e,
        user_services.svc_require_valid_username svc submitted = inr () ->
        user_services.svc_is_username_taken svc submitted st = inl e ->
        res = (inl e, st,
               [Ev (user_services.require_valid_username submitted);
                Ev (user_services.is_username_taken submitted)])).
Proof.
  intros submitted res. subst res.
  rewrite UsernameCheckHandler_post_run. simpl. fold submitted.
  split; [ | split; [ | split]].
  - intros msg Hbad. rewrite Hbad. reflexivity.
  - intros e Hbad Hother. rewrite Hbad.
    destruct e; try reflexivity. exfalso. eapply Hother. reflexivity.
  - intros taken Hok Htaken. rewrite Hok, Htaken. reflexivity.
  - intros e Hok Hfail. rewrite Hok, Hfail. reflexivity.
Qed.

(* ===================================================================== *)
(** ** Further properties over the service model *)
(* ===================================================================== *)

(** A partial update writes the settings of its user only and neither
    adds nor removes settings. *)
Lemma update_lookup_other (uid u : string)
    (f : UserSettings -> UserSettings) (st : gmap string UserSettings) :
  u <> uid -> (user_services_model.update uid f st).2 !! u = st !! u.
Proof.
  intros Hne. unfold user_services_model.update.
  destruct (st !! uid); simpl; [ | reflexivity].
  apply lookup_insert_ne. congruence.
Qed.

Lemma update_dom (uid : string) (f : UserSettings -> UserSettings)
    (st : gmap string UserSettings) :
  dom (user_services_model.update uid f st).2 = dom st.
Proof.
  unfold user_services_model.update.
  destruct (st !! uid) as [us | ] eqn:Hus; simpl; [ | reflexivity].
  rewrite dom_insert_L.
  apply subseteq_union_1_L, singleton_subseteq_l, elem_of_dom. eauto.
Qed.

Lemma set_username_lookup_other
    (validate_username : pyval -> option message)
    (taken_message : pyval -> message) (uid u : string) (v : pyval)
    (st : gmap string UserSettings) :
  u <> uid ->
  (user_services_model.set_username validate_username taken_message
     uid v st).2 !! u = st !! u.
Proof.
  intros Hne. unfold user_services_model.set_username.
  destruct (validate_username v); simpl; [reflexivity | ].
  destruct (bool_decide _); simpl; [reflexivity | ].
  apply update_lookup_other. exact Hne.
Qed.

Lemma set_username_dom
    (validate_username : pyval -> option message)
    (taken_message : pyval -> message) (uid : string) (v : pyval)
    (st : gmap string UserSettings) :
  dom (user_services_model.set_username validate_username taken_message
         uid v st).2 = dom st.
Proof.
  unfold user_services_model.set_username.
  destruct (validate_username v); simpl; [reflexivity | ].
  destruct (bool_decide _); simpl; [reflexivity | ].
  apply update_dom.
Qed.

Section model_extras.

Variable validate_username : pyval -> option message.
Variable taken_message : pyval -> message.
Variable now : Z.

Local Abbreviation svc :=
  (user_services_model.service validate_username taken_message now).

(** A first POST with an acceptable, free username goes through and
    stores both the agreement and the username. *)
Lemma EditorPrerequisitesHandler_post_success
    (st : gmap string UserSettings) (uid : string) (us : UserSettings)
    (payload values : pydict) :
  st !! uid = Some us ->
  py_truthy (username us) = false ->
  dict_get payload "agreed_to_terms" = PBool true ->
  validate_username (dict_get payload "username") = None ->
  ~ user_services_model.username_exists (dict_get payload "username") st ->
  run svc (EditorPrerequisitesHandler_post
             {| base.user_id := Some uid; base.payload := payload;
                base.values := values |}) st
  = (inr (base.render_json ∅),
     <[uid := {| username := dict_get payload "username";
                 last_agreed_to_terms := Some now;
                 user_bio := user_bio us;
                 preferred_language_codes := preferred_language_codes us |}]>
       st,
     [Ev (user_services.record_agreement_to_terms uid);
      Ev (user_services.get_username uid);
      Ev (user_services.set_username uid (dict_get payload "username"))]).
Proof.
  intros Hu Hunset Hagreed Hvalid Hfree.
  rewrite (EditorPrerequisitesHandler_post_run svc st uid payload values
             Hagreed).
  simpl.
  pose proof (update_username_exists uid
    (fun us => user_services_model.with_last_agreed_to_terms us (Some now))
    st (dict_get payload "username") (fun _ => eq_refl)) as Hexists.
  unfold user_services_model.record_agreement_to_terms.
  unfold user_services_model.update in *.
  rewrite Hu in *. simpl in *.
  unfold user_services_model.get_username.
  rewrite lookup_insert_eq. simpl. rewrite Hunset.
  unfold user_services_model.set_username.
  rewrite Hvalid.
  rewrite bool_decide_eq_false_2 by (rewrite Hexists; exact Hfree).
  unfold user_services_model.update.
  rewrite lookup_insert_eq. simpl.
  rewrite insert_insert_eq. reflexivity.
Qed.

(** X10.  On the service model: after a first POST to
    [EditorPrerequisitesHandler] that goes through (terms agreed, no
    username yet, submitted username accepted by the validator and used
    by nobody), a GET of [EditorPrerequisitesHandler] by the same user
    answers that the terms are agreed to and gives back the submitted
    username. *)
Theorem EditorPrerequisitesHandler_post_then_get
    (st : gmap string UserSettings) (uid : string) (us : UserSettings)
    (payload values payload' values' : pydict) :
  let submitted := dict_get payload "username" in
  st !! uid = Some us ->
  py_truthy (username us) = false ->
  dict_get payload "agreed_to_terms" = PBool true ->
  validate_username submitted = None ->
  ~ user_services_model.username_exists submitted st ->
  exists st' : gmap string UserSettings,
    final_state (run svc (EditorPrerequisitesHandler_post
                            {| base.user_id := Some uid;
                               base.payload := payload;
                               base.values := values |}) st) = st'
    /\ outcome (run svc (EditorPrerequisitesHandler_post
                           {| base.user_id := Some uid;
                              base.payload := payload;
                              base.values := values |}) st)
       = inr (base.render_json ∅)
    /\ run svc (EditorPrerequisitesHandler_get
                  {| base.user_id := Some uid; base.payload := payload';
                     base.values := values' |}) st'
       = (inr (base.render_json
                 (<["has_agreed_to_terms" := PBool true]>
                  (<["username" := submitted]> ∅))), st',
          [Ev (user_services.get_user_settings uid)]).
Proof.
  intros submitted Hu Hunset Hagreed Hvalid Hfree.
  rewrite (EditorPrerequisitesHandler_post_success st uid us payload values
             Hu Hunset Hagreed Hvalid Hfree).
  eexists. split; [reflexivity | split; [reflexivity | ]].
  unfold final_state; cbn [fst snd].
  unfold EditorPrerequisitesHandler_get, base.require_user; simpl.
  rewrite lookup_insert_eq. reflexivity.
Qed.

(** X11.  On the service model: after such a first POST, a POST to
    [UsernameCheckHandler] by any user for the same username answers
    that the username is taken, and a POST to
    [EditorPrerequisitesHandler] by another user without a username who
    submits it fails with the invalid-input condition carrying the
    message for a taken username. *)
Theorem username_is_taken_after_post
    (st : gmap string UserSettings) (uid : string) (us : UserSettings)
    (payload values : pydict) (asker : string) (values' : pydict)
    (other : string) (us_other : UserSettings) :
  let submitted := dict_get payload "username" in
  st !! uid = Some us ->
  py_truthy (username us) = false ->
  dict_get payload "agreed_to_terms" = PBool true ->
  validate_username submitted = None ->
  ~ user_services_model.username_exists submitted st ->
  let st' := final_state
               (run svc (EditorPrerequisitesHandler_post
                           {| base.user_id := Some uid;
                              base.payload := payload;
                              base.values := values |}) st) in
  outcome (run svc (UsernameCheckHandler_post
                      {| base.user_id := Some asker;
                         base.payload := <["username" := submitted]> ∅;
                         base.values := values' |}) st')
    = inr (base.render_json (<["username_is_taken" := PBool true]> ∅))
  /\ (other <> uid -> st !! other = Some us_other ->
      py_truthy (username us_other) = false ->
      outcome (run svc (EditorPrerequisitesHandler_post
                          {| base.user_id := Some other;
                             base.payload := payload;
                             base.values := values' |}) st')
        = inl (InvalidInputException (taken_message submitted))).
Proof.
  intros submitted Hu Hunset Hagreed Hvalid Hfree st'.
  subst st'.
  rewrite (EditorPrerequisitesHandler_post_success st uid us payload values
             Hu Hunset Hagreed Hvalid Hfree).
  unfold final_state; cbn [fst snd].
  set (st' := <[uid := _]> st).
  assert (Htaken : user_services_model.username_exists submitted st').
  { apply username_exists_iff. eexists uid, _. subst st'.
    rewrite lookup_insert_eq. split; reflexivity. }
  split.
  - rewrite UsernameCheckHandler_post_run.
    unfold dict_get. rewrite lookup_insert_eq. simpl.
    unfold user_services_model.require_valid_username.
    fold submitted. rewrite Hvalid. simpl.
    rewrite (bool_decide_eq_true_2 _ Htaken). reflexivity.
  - intros Hother Huo Hunset_o.
    assert (Huo' : st' !! other = Some us_other).
    { subst st'. rewrite lookup_insert_ne by congruence. exact Huo. }
    rewrite (EditorPrerequisitesHandler_post_run svc st' other payload
               values' Hagreed).
    simpl. fold submitted.
    pose proof (update_username_exists other
      (fun us => user_services_model.with_last_agreed_to_terms us (Some now))
      st' submitted (fun _ => eq_refl)) as Hexists.
    unfold user_services_model.record_agreement_to_terms.
    unfold user_services_model.update in *.
    rewrite Huo' in *. simpl in *.
    unfold user_services_model.get_username.
    rewrite lookup_insert_eq. simpl. rewrite Hunset_o.
    unfold user_services_model.set_username.
    rewrite Hvalid. apply Hexists in Htaken.
    rewrite (bool_decide_eq_true_2 _ Htaken). reflexivity.
Qed.

(** X12.  On the service model: a PUT to [PreferencesHandler] changes
    the one preference it names.  After a PUT of
    ['preferred_language_codes'] a GET of [PreferencesHandler] by the
    same user gives the submitted codes and the bio as it was; after a
    PUT of ['user_bio'] it gives the submitted bio and the codes as they
    were. *)
Theorem PreferencesHandler_put_keeps_the_other_preference
    (st : gmap string UserSettings) (uid : string) (us : UserSettings)
    (payload values payload' values' : pydict) :
  st !! uid = Some us ->
  let data := dict_get payload "data" in
  let put := run svc (PreferencesHandler_put
                        {| base.user_id := Some uid; base.payload := payload;
                           base.values := values |}) st in
  let get := run svc (PreferencesHandler_get
                        {| base.user_id := Some uid; base.payload := payload';
                           base.values := values' |}) (final_state put) in
  (dict_get payload "update_type" = PStr "preferred_language_codes" ->
     outcome put = inr base.no_response
     /\ exists vals : pydict,
          outcome get = inr (base.render_json vals)
          /\ vals !! "preferred_language_codes" = Some data
          /\ vals !! "user_bio" = Some (user_bio us))
  /\ (dict_get payload "update_type" = PStr "user_bio" ->
      outcome put = inr base.no_response
      /\ exists vals : pydict,
           outcome get = inr (base.render_json vals)
           /\ vals !! "user_bio" = Some data
           /\ vals !! "preferred_language_codes"
              = Some (preferred_language_codes us)).
Proof.
  intros Hu data put get.
  split; intros Htype.
  - assert (Hput : put =
      (inr base.no_response,
       <[uid := user_services_model.with_preferred_language_codes us data]> st,
       [Ev (user_services.update_preferred_language_codes uid data)])).
    { subst put.
      unfold PreferencesHandler_put, base.require_user; simpl.
      fold data. rewrite Htype; simpl.
      unfold user_services_model.update_preferred_language_codes,
        user_services_model.update.
      rewrite Hu. reflexivity. }
    subst get. rewrite Hput. unfold final_state, outcome; cbn [fst snd].
    split; [reflexivity | ].
    unfold PreferencesHandler_get, base.require_user; simpl.
    rewrite lookup_insert_eq; simpl.
    eexists. split; [reflexivity | ]. unfold dict_update.
    split; apply lookup_union_Some_l.
    + rewrite lookup_insert_ne by discriminate. apply lookup_insert_eq.
    + apply lookup_insert_eq.
  - assert (Hput : put =
      (inr base.no_response,
       <[uid := user_services_model.with_user_bio us data]> st,
       [Ev (user_services.update_user_bio uid data)])).
    { subst put.
      unfold PreferencesHandler_put, base.require_user; simpl.
      fold data. rewrite Htype; simpl.
      unfold user_services_model.update_user_bio, user_services_model.update.
      rewrite Hu. reflexivity. }
    subst get. rewrite Hput. unfold final_state, outcome; cbn [fst snd].
    split; [reflexivity | ].
    unfold PreferencesHandler_get, base.require_user; simpl.
    rewrite lookup_insert_eq; simpl.
    eexists. split; [reflexivity | ]. unfold dict_update.
    split; apply lookup_union_Some_l.
    + apply lookup_insert_eq.
    + rewrite lookup_insert_ne by discriminate. apply lookup_insert_eq.
Qed.

(** X13.  On the service model: a request changes the stored settings
    of the user bound to it and of nobody else.  Whatever the request
    and its payload, and whether it succeeds or fails, the users who
    have settings afterwards are the users who had settings before, and
    the settings of every user other than the requester are the same;
    a request with no user bound changes nothing. *)
Theorem requests_touch_only_the_requester
    (cfg : feconf.t) (get_short_language_description : pyval -> pyval)
    (config_value : config_domain.ConfigProperty -> pyval)
    (req : request) (self : base.BaseHandler)
    (st : gmap string UserSettings) :
  let st' := final_state
               (run svc (dispatch cfg get_short_language_description
                           config_value req self) st) in
  dom st' = dom st
  /\ (forall u : string, base.user_id self <> Some u -> st' !! u = st !! u)
  /\ (base.user_id self = None -> st' = st).
Proof.
  intros st'.
  assert (Hread : req <> PUT_PreferencesHandler ->
                  req <> POST_EditorPrerequisitesHandler -> st' = st).
  { intros Hput Hpost. subst st'.
    apply read_requests_keep_state; assumption. }
  assert (Hcases : req = PUT_PreferencesHandler
                   \/ req = POST_EditorPrerequisitesHandler
                   \/ (req <> PUT_PreferencesHandler
                       /\ req <> POST_EditorPrerequisitesHandler)).
  { destruct req; auto; right; right; split; discriminate. }
  destruct Hcases as [-> | [-> | [Hput Hpost]]];
    [ | | rewrite (Hread Hput Hpost); repeat split; reflexivity ].
  - subst st'. destruct self as [[uid | ] payload values];
      [ | repeat split; reflexivity ].
    unfold dispatch, PreferencesHandler_put, base.require_user, final_state;
      simpl.
    destruct (py_eq_str (dict_get payload "update_type") "user_bio"); simpl.
    { unfold user_services_model.update_user_bio.
      pose proof (update_dom uid (fun us => user_services_model.with_user_bio
                    us (dict_get payload "data")) st) as Hdom.
      pose proof (fun u => update_lookup_other uid u
                    (fun us => user_services_model.with_user_bio
                       us (dict_get payload "data")) st) as Hother.
      destruct (user_services_model.update uid _ st) as [[e | []] st1];
        simpl in *; (split; [exact Hdom | split; [ | discriminate]]);
        intros u Hu; apply Hother; congruence. }
    destruct (py_eq_str (dict_get payload "update_type")
                "preferred_language_codes"); simpl;
      [ | repeat split; reflexivity ].
    unfold user_services_model.update_preferred_language_codes.
    pose proof (update_dom uid
                  (fun us => user_services_model.with_preferred_language_codes
                     us (dict_get payload "data")) st) as Hdom.
    pose proof (fun u => update_lookup_other uid u
                  (fun us => user_services_model.with_preferred_language_codes
                     us (dict_get payload "data")) st) as Hother.
    destruct (user_services_model.update uid _ st) as [[e | []] st1];
      simpl in *; (split; [exact Hdom | split; [ | discriminate]]);
      intros u Hu; apply Hother; congruence.
  - subst st'. destruct self as [[uid | ] payload values];
      [ | repeat split; reflexivity ].
    unfold dispatch.
    destruct (decide (dict_get payload "agreed_to_terms" = PBool true))
      as [Hagreed | Hne].
    2: { rewrite EditorPrerequisitesHandler_post_refused by exact Hne.
         repeat split; reflexivity. }
    rewrite (EditorPrerequisitesHandler_post_run svc st uid payload values
               Hagreed).
    simpl.
    unfold user_services_model.record_agreement_to_terms.
    pose proof (update_dom uid
                  (fun us => user_services_model.with_last_agreed_to_terms
                     us (Some now)) st) as Hdom.
    pose proof (fun u => update_lookup_other uid u
                  (fun us => user_services_model.with_last_agreed_to_terms
                     us (Some now)) st) as Hother.
    destruct (user_services_model.update uid _ st) as [[e | []] st1];
      simpl in Hdom, Hother.
    { unfold final_state; simpl.
      split; [exact Hdom | split; [ | discriminate]].
      intros u Hu; apply Hother; congruence. }
    assert (Hst1 : dom st1 = dom st
                   /\ (forall u, Some uid <> Some u -> st1 !! u = st !! u)
                   /\ (Some uid = None -> st1 = st)).
    { split; [exact Hdom | split; [ | discriminate]].
      intros u Hu; apply Hother; congruence. }
    destruct (user_services_model.get_username uid st1) as [e | current];
      [exact Hst1 | ].
    destruct (py_truthy current); [exact Hst1 | ].
    pose proof (set_username_dom validate_username taken_message uid
                  (dict_get payload "username") st1) as Hdom2.
    pose proof (fun u => set_username_lookup_other validate_username
                  taken_message uid u (dict_get payload "username") st1)
      as Hother2.
    destruct (user_services_model.set_username _ _ uid _ st1) as [r2 st2].
    unfold final_state; simpl in *.
    split; [congruence | split; [ | discriminate]].
    intros u Hu. rewrite Hother2 by congruence. apply Hother. congruence.
Qed.

End model_extras.

(* ===================================================================== *)
(** ** The further properties at work on the example store *)
(* ===================================================================== *)

Lemma PreferencesPage_get_languages_witness :
  exists (vals : pydict) (names : list pyval),
    run example.service
      (PreferencesPage_get example.cfg (fun d => d)
         {| base.user_id := Some "uid_new"; base.payload := ∅;
            base.values := ∅ |}) example.users
      = (inr (base.render_template "profile/preferences.html" vals),
         example.users, [])
    /\ vals !! "LANGUAGE_CODES_AND_NAMES" = Some (PList names)
    /\ names !! 0%nat
       = Some (PDict [("code", PStr "en"); ("name", PStr "English")]).
Proof.
  destruct (PreferencesPage_get_languages example.service example.cfg
              (fun d => d) example.users "uid_new" ∅ ∅)
    as (vals & names & Hrun & Hlist & _ & Hnames & _).
  exists vals, names. split; [exact Hrun | split; [exact Hlist | ]].
  apply (Hnames 0%nat {| feconf.code := PStr "en";
                         feconf.description := PStr "English" |}).
  reflexivity.
Defined.

Lemma EditorPrerequisitesPage_get_agreement_witness :
  exists vals : pydict,
    run example.service
      (EditorPrerequisitesPage_get example.cfg config_domain.default_value
         {| base.user_id := Some "uid_new"; base.payload := ∅;
            base.values := <["agreement" := PStr "stale"]> ∅ |})
      example.users
      = (inr (base.render_template "profile/editor_prerequisites.html" vals),
         example.users, [])
    /\ vals !! "nav_mode" = Some (PStr "profile").
Proof.
  destruct (EditorPrerequisitesPage_get_agreement example.service example.cfg
              config_domain.default_value example.users "uid_new" ∅
              (<["agreement" := PStr "stale"]> ∅))
    as (vals & Hrun & _ & Hnav & _).
  exists vals. split; [exact Hrun | exact Hnav].
Defined.

Lemma PreferencesHandler_get_fields_witness :
  exists vals : pydict,
    run example.service
      (PreferencesHandler_get
         {| base.user_id := Some "uid_alice"; base.payload := ∅;
            base.values := <["user_bio" := PStr "stale"]> ∅ |})
      example.users
      = (inr (base.render_json vals), example.users,
         [Ev (user_services.get_user_settings "uid_alice")])
    /\ vals !! "user_bio" = Some (PStr "I like maps.")
    /\ vals !! "preferred_language_codes" = Some (PList [PStr "en"]).
Proof.
  destruct (PreferencesHandler_get_fields example.service example.users
              "uid_alice" ∅ (<["user_bio" := PStr "stale"]> ∅) example.alice
              ltac:(vm_compute; reflexivity))
    as (vals & Hrun & Hbio & Hcodes & _).
  exists vals. split; [exact Hrun | split; [exact Hbio | exact Hcodes]].
Defined.

Lemma get_without_settings_raises_AttributeError_witness :
  (exists msg,
     run example.service
       (PreferencesHandler_get
          {| base.user_id := Some "uid_ghost"; base.payload := ∅;
             base.values := ∅ |}) example.users
     = (inl (AttributeError msg), example.users,
        [Ev (user_services.get_user_settings "uid_ghost")]))
  /\ (exists msg,
        run example.service
          (EditorPrerequisitesHandler_get
             {| base.user_id := Some "uid_ghost"; base.payload := ∅;
                base.values := ∅ |}) example.users
        = (inl (AttributeError msg), example.users,
           [Ev (user_services.get_user_settings "uid_ghost")])).
Proof.
  refine (get_without_settings_raises_AttributeError example.service
            example.users "uid_ghost" ∅ ∅ _).
  vm_compute; reflexivity.
Defined.

Lemma only_ProfilePage_is_public_witness :
  run example.service
    (dispatch example.cfg (fun d => d) config_domain.default_value
       PUT_PreferencesHandler
       {| base.user_id := None; base.payload := example.put_bio;
          base.values := ∅ |}) example.users
  = (inl UnauthorizedUserException, example.users, []).
Proof.
  refine (proj1 (only_ProfilePage_is_public example.service example.cfg
                   (fun d => d) config_domain.default_value example.users
                   example.put_bio ∅) PUT_PreferencesHandler _).
  intros username. discriminate.
Defined.

Lemma read_requests_never_update_witness :
  final_state
    (run example.service
       (dispatch example.cfg (fun d => d) config_domain.default_value
          POST_UsernameCheckHandler
          {| base.user_id := Some "uid_new";
             base.payload := <["username" := PStr "alice"]> ∅;
             base.values := ∅ |}) example.users)
  = example.users.
Proof.
  refine (proj1 (read_requests_never_update example.service example.cfg
                   (fun d => d) config_domain.default_value example.users
                   POST_UsernameCheckHandler
                   {| base.user_id := Some "uid_new";
                      base.payload := <["username" := PStr "alice"]> ∅;
                      base.values := ∅ |} _ _)); discriminate.
Defined.

Lemma calls_are_for_the_requesting_user_witness :
  Forall (fun ev => forall uid, call_user_id ev = Some uid ->
                      Some "uid_new" = Some uid)
    (trace (run example.service
              (dispatch example.cfg (fun d => d) config_domain.default_value
                 POST_EditorPrerequisitesHandler
                 {| base.user_id := Some "uid_new";
                    base.payload := example.agree_as (PStr "bob");
                    base.values := ∅ |}) example.users)).
Proof.
  exact (calls_are_for_the_requesting_user example.service example.cfg
           (fun d => d) config_domain.default_value example.users
           POST_EditorPrerequisitesHandler
           {| base.user_id := Some "uid_new";
              base.payload := example.agree_as (PStr "bob");
              base.values := ∅ |}).
Defined.

Lemma EditorPrerequisitesHandler_post_short_circuits_witness :
  run example.service
    (EditorPrerequisitesHandler_post
       {| base.user_id := Some "uid_ghost";
          base.payload := example.agree_as (PStr "bob");
          base.values := ∅ |}) example.users
  = (inl user_services_model.user_not_found, example.users,
     [Ev (user_services.record_agreement_to_terms "uid_ghost")]).
Proof.
  refine (proj1 (EditorPrerequisitesHandler_post_short_circuits
                   example.service example.users "uid_ghost"
                   (example.agree_as (PStr "bob")) ∅ _)
                user_services_model.user_not_found example.users _);
    vm_compute; reflexivity.
Defined.

Lemma UsernameCheckHandler_post_validates_first_witness :
  run example.service
    (UsernameCheckHandler_post
       {| base.user_id := Some "uid_new";
          base.payload := <["username" := PInt 7]> ∅;
          base.values := ∅ |}) example.users
  = (inl (InvalidInputException (Msg "Empty username supplied.")),
     example.users,
     [Ev (user_services.require_valid_username (PInt 7))]).
Proof.
  refine (proj1 (UsernameCheckHandler_post_validates_first example.service
                   example.users "uid_new" (<["username" := PInt 7]> ∅) ∅)
                (Msg "Empty username supplied.") _).
  vm_compute; reflexivity.
Defined.

Lemma example_bob_is_free :
  ~ user_services_model.username_exists
      (dict_get (example.agree_as (PStr "bob")) "username") example.users.
Proof.
  intros Hex. pose proof (bool_decide_pack _ Hex) as Hb.
  vm_compute in Hb. exact Hb.
Defined.

Lemma EditorPrerequisitesHandler_post_then_get_witness :
  exists st' : gmap string UserSettings,
    final_state (run example.service
                   (EditorPrerequisitesHandler_post
                      {| base.user_id := Some "uid_new";
                         base.payload := example.agree_as (PStr "bob");
                         base.values := ∅ |}) example.users) = st'
    /\ outcome (run example.service
                  (EditorPrerequisitesHandler_post
                     {| base.user_id := Some "uid_new";
                        base.payload := example.agree_as (PStr "bob");
                        base.values := ∅ |}) example.users)
       = inr (base.render_json ∅)
    /\ run example.service
         (EditorPrerequisitesHandler_get
            {| base.user_id := Some "uid_new"; base.payload := ∅;
               base.values := ∅ |}) st'
       = (inr (base.render_json
                 (<["has_agreed_to_terms" := PBool true]>
                  (<["username" :=
                       dict_get (example.agree_as (PStr "bob")) "username"]>
                     ∅))), st',
          [Ev (user_services.get_user_settings "uid_new")]).
Proof.
  refine (EditorPrerequisitesHandler_post_then_get example.validate_username
            example.taken_message example.now example.users "uid_new"
            example.newcomer (example.agree_as (PStr "bob")) ∅ ∅ ∅
            _ _ _ _ example_bob_is_free); vm_compute; reflexivity.
Defined.

Lemma username_is_taken_after_post_witness :
  outcome (run example.service
             (UsernameCheckHandler_post
                {| base.user_id := Some "uid_alice";
                   base.payload :=
                     <["username" :=
                         dict_get (example.agree_as (PStr "bob")) "username"]>
                       ∅;
                   base.values := ∅ |})
             (final_state
                (run example.service
                   (EditorPrerequisitesHandler_post
                      {| base.user_id := Some "uid_new";
                         base.payload := example.agree_as (PStr "bob");
                         base.values := ∅ |}) example.users)))
  = inr (base.render_json (<["username_is_taken" := PBool true]> ∅)).
Proof.
  refine (proj1 (username_is_taken_after_post example.validate_username
                   example.taken_message example.now example.users "uid_new"
                   example.newcomer (example.agree_as (PStr "bob")) ∅
                   "uid_alice" ∅ "uid_alice" example.alice
                   _ _ _ _ example_bob_is_free)); vm_compute; reflexivity.
Defined.

Lemma PreferencesHandler_put_keeps_the_other_preference_witness :
  outcome (run example.service
             (PreferencesHandler_put
                {| base.user_id := Some "uid_alice";
                   base.payload := example.put_bio;
                   base.values := ∅ |}) example.users)
    = inr base.no_response
  /\ exists vals : pydict,
       outcome (run example.service
                  (PreferencesHandler_get
                     {| base.user_id := Some "uid_alice"; base.payload := ∅;
                        base.values := ∅ |})
                  (final_state
                     (run example.service
                        (PreferencesHandler_put
                           {| base.user_id := Some "uid_alice";
                              base.payload := example.put_bio;
                              base.values := ∅ |}) example.users)))
         = inr (base.render_json vals)
       /\ vals !! "user_bio" = Some (dict_get example.put_bio "data")
       /\ vals !! "preferred_language_codes"
          = Some (preferred_language_codes example.alice).
Proof.
  refine (proj2 (PreferencesHandler_put_keeps_the_other_preference
                   example.validate_username example.taken_message
                   example.now example.users "uid_alice" example.alice
                   example.put_bio ∅ ∅ ∅ _) _); vm_compute; reflexivity.
Defined.

Lemma requests_touch_only_the_requester_witness :
  final_state
    (run example.service
       (dispatch example.cfg (fun d => d) config_domain.default_value
          POST_EditorPrerequisitesHandler
          {| base.user_id := Some "uid_new";
             base.payload := example.agree_as (PStr "bob");
             base.values := ∅ |}) example.users) !! "uid_alice"
  = example.users !! "uid_alice".
Proof.
  refine (proj1 (proj2 (requests_touch_only_the_requester
                   example.validate_username example.taken_message
                   example.now example.cfg (fun d => d)
                   config_domain.default_value
                   POST_EditorPrerequisitesHandler
                   {| base.user_id := Some "uid_new";
                      base.payload := example.agree_as (PStr "bob");
                      base.values := ∅ |} example.users)) "uid_alice" _).
  vm_compute. discriminate.
Defined.
